(** * The player-prop betting simulator ([streamlit_app.py])

    A shallow embedding of the computational part of the application: the
    Bayesian update, the point projection, the floor adjustment, the Monte
    Carlo sampler, the expected-value and edge computations, the
    recommendation tiers, and the top-level script that wires them together
    (lines 98-152 of the source); and of the profile store in front of it:
    loading and saving the profiles, the selection, the values the widgets
    are created with, and the two buttons (lines 10-95).

    Number model.  The Python numbers of the program (ints and binary64
    floats) are idealised as real numbers: rounding, overflow and
    infinities are not modelled.  What _is_ modelled of the partiality of
    Python arithmetic is made explicit in the [result] type: a true division
    by zero raises [ZeroDivisionError], and the places where numpy yields
    [nan] (square root of a negative number, mean of an empty array) stop
    the model with [FloatNaN] instead of inventing a real value.

    Statements about order, bounds and which branch is taken are made on
    this model.  Where rounding, the range of binary64 or the sign of a
    zero decides, the functions are embedded a second time on binary64
    numbers (module [Binary64]), where they can be evaluated: statements
    about exact equalities and strict inequalities of computed values are
    made in exact arithmetic and carry the binary64 evaluation that shows
    their limit. *)

From Stdlib Require Import Reals Lra Lia List ZArith String Bool.
From Stdlib Require PrimFloat.
Import (notations) PrimFloat.
Import ListNotations.

Set Warnings "-inexact-float".

Open Scope string_scope.
Open Scope R_scope.

(** ** Outcomes of Python computations *)

Inductive error : Type :=
| ZeroDivisionError   (* x / 0 on Python numbers *)
| ValueError          (* raised by numpy on a bad argument *)
| OverflowError       (* x ** 2 out of the range of binary64 *)
| FloatNaN.           (* not an exception: numpy produced nan, no real value *)

Inductive result (A : Type) : Type :=
| Value (a : A)
| Fails (e : error).

Arguments Value {A} a.
Arguments Fails {A} e.

Definition bind {A B : Type} (m : result A) (k : A -> result B) : result B :=
  match m with
  | Value a => k a
  | Fails e => Fails e
  end.

Notation "x <- m ;; k" := (bind m (fun x => k))
  (at level 61, m at next level, right associativity).

(** ** Python built-ins used by the program *)

Module Py.

(** Comparison operators, as booleans. *)
Definition lt (x y : R) : bool := if Rlt_dec x y then true else false.
Definition le (x y : R) : bool := if Rle_dec x y then true else false.
Definition gt (x y : R) : bool := lt y x.
Definition ge (x y : R) : bool := le y x.
Definition eq (x y : R) : bool := if Req_dec_T x y then true else false.

(** [x / y]: true division, which raises on a zero divisor. *)
Definition truediv (x y : R) : result R :=
  if Req_dec_T y 0 then Fails ZeroDivisionError else Value (x / y).

(** [max(a, b)]: the first argument is kept unless the second is
    strictly greater. *)
Definition max (a b : R) : R := if gt b a then b else a.

(** [abs(x)]. *)
Definition abs (x : R) : R := Rabs x.

End Py.

Notation "x /! y" := (Py.truediv x y) (at level 40, left associativity).

(** ** numpy functions used by the program *)

(** The random generator is the global numpy generator.  Its effect on
    [np.random.normal] is a sequence of standard normal deviates, the [k]-th
    of which is [z k]; a sample is [loc + scale * z k]. *)
Definition Draws : Type := nat -> R.

Module Np.

(** [np.sqrt(x)]: nan below zero. *)
Definition sqrt (x : R) : result R :=
  if Py.lt x 0 then Fails FloatNaN else Value (R_sqrt.sqrt x).

(** The array of [size] samples, the [k]-th one made from the [k]-th
    deviate. *)
Definition normal_samples (loc scale : R) (size : Z) (z : Draws) : list R :=
  map (fun k => loc + scale * z k) (seq 0 (Z.to_nat size)).

(** [np.random.normal(loc, scale, size)]: numpy rejects a negative scale
    and a negative size with [ValueError]; it has no other check.  The
    real numbers have one zero, which stands for +0.0 here; numpy reads the
    sign bit and rejects -0.0 too, see [Binary64.monte_carlo_simulation]. *)
Definition random_normal (loc scale : R) (size : Z) (z : Draws)
  : result (list R) :=
  if Py.lt scale 0 then Fails ValueError
  else if (size <? 0)%Z then Fails ValueError
  else Value (normal_samples loc scale size z).

(** [arr > x], elementwise. *)
Definition greater (arr : list R) (x : R) : list bool :=
  map (fun a => Py.gt a x) arr.

(** Number of [True] entries of a boolean array. *)
Definition count_true (bs : list bool) : nat :=
  List.length (filter (fun b => b) bs).

(** [np.mean] of a boolean array: the fraction of [True] entries; nan on
    the empty array. *)
Definition mean (bs : list bool) : result R :=
  match bs with
  | [] => Fails FloatNaN
  | _ :: _ => Value (INR (count_true bs) / INR (List.length bs))
  end.

End Np.

(** ** The simulation functions (source lines 98-138) *)

(** [games_played is None or games_played == 0]. *)
Definition no_history (games_played : option R) : bool :=
  match games_played with
  | None => true
  | Some g => Py.eq g 0
  end.

(** [bayesian_update] reads the global [games_played]; it is the first
    argument here. *)
Definition bayesian_update (games_played : option R)
    (prior_mu prior_sigma recent_mu recent_games : R) : result (R * R) :=
  if no_history games_played then Value (prior_mu, prior_sigma)
  else
    a <- prior_mu /! prior_sigma ^ 2 ;;
    b <- (recent_games * recent_mu) /! prior_sigma ^ 2 ;;
    c <- 1 /! prior_sigma ^ 2 ;;
    d <- recent_games /! prior_sigma ^ 2 ;;
    posterior_mu <- (a + b) /! (c + d) ;;
    c' <- 1 /! prior_sigma ^ 2 ;;
    d' <- recent_games /! prior_sigma ^ 2 ;;
    v <- 1 /! (c' + d') ;;
    posterior_sigma <- Np.sqrt v ;;
    Value (posterior_mu, posterior_sigma).

Definition monte_carlo_simulation (mu sigma : R) (sims : Z) (z : Draws)
  : result (list R) :=
  Np.random_normal mu sigma sims z.

(** The local [odds_decimal] of [calculate_ev] (line 109). *)
Definition odds_decimal (odds : R) : result R :=
  if Py.lt odds 0
  then q <- 100 /! Py.abs odds ;; Value (1 + q)
  else q <- odds /! 100 ;; Value (q + 1).

Definition calculate_ev (prob_over odds : R) : result R :=
  od <- odds_decimal odds ;;
  Value (prob_over * od - (1 - prob_over)).

Definition apply_floor_adjustment
    (projected_points opp_points_allowed floor_percentage : R)
  : result (R * bool) :=
  ratio <- floor_percentage /! 100 ;;
  let floor_value := opp_points_allowed * ratio in
  let floor_triggered := Py.lt projected_points floor_value in
  Value (Py.max projected_points floor_value, floor_triggered).

Definition calculate_projected_points
    (mean_points recent_avg_points opp_points_allowed
     projected_minutes avg_minutes : R) : result R :=
  let weighted_avg := 0.6 * mean_points + 0.4 * recent_avg_points in
  let opponent_adjustment := (opp_points_allowed - mean_points) * 0.25 in
  minutes_adjustment <-
    (if Py.gt avg_minutes 0 then projected_minutes /! avg_minutes
     else Value 1) ;;
  Value ((weighted_avg + opponent_adjustment) * minutes_adjustment).

Definition get_bet_recommendation (edge_percentage : R) : string :=
  if Py.ge edge_percentage 50 then "Very Strong Over Bet"
  else if Py.ge edge_percentage 31 then "Strong Over Bet"
  else if Py.ge edge_percentage 10 then "Good Over Bet"
  else if Py.le edge_percentage (-50) then "Very Strong Under Bet"
  else if Py.le edge_percentage (-31) then "Strong Under Bet"
  else if Py.le edge_percentage (-10) then "Good Under Bet"
  else "No Strong Bet Recommendation".

(** The tiers of the specification and the text the program shows for each. *)
Inductive Recommendation : Type :=
| VeryStrongOver | StrongOver | GoodOver | NoBet
| GoodUnder | StrongUnder | VeryStrongUnder.

Definition recommendation_text (r : Recommendation) : string :=
  match r with
  | VeryStrongOver => "Very Strong Over Bet"
  | StrongOver => "Strong Over Bet"
  | GoodOver => "Good Over Bet"
  | NoBet => "No Strong Bet Recommendation"
  | GoodUnder => "Good Under Bet"
  | StrongUnder => "Strong Under Bet"
  | VeryStrongUnder => "Very Strong Under Bet"
  end.

(** ** The script (source lines 141-152) *)

(** The values read from the sidebar widgets. *)
Record Inputs : Type := mkInputs {
  mean_points : R;
  std_dev_points : R;
  games_played : option R;
  recent_avg_points : R;
  recent_games : R;
  opp_points_allowed_position : R;
  projected_minutes : R;
  avg_minutes : R;
  floor_percentage : R;
  line : R;
  odds : R;
  simulations : Z
}.

(** The variables the script has bound when it reaches the display code. *)
Record Outputs : Type := mkOutputs {
  posterior_mu : R;
  posterior_sigma : R;
  projected_points : R;
  simulated_points : list R;
  final_points : R;
  floor_triggered : bool;
  prob_over_line : R;
  ev : R;
  edge_percentage : R;
  bet_recommendation : string
}.

Definition run (i : Inputs) (z : Draws) : result Outputs :=
  post <- bayesian_update (games_played i) (mean_points i) (std_dev_points i)
            (recent_avg_points i) (recent_games i) ;;
  let '(posterior_mu, posterior_sigma) := post in
  projected_points <- calculate_projected_points (mean_points i)
            (recent_avg_points i) (opp_points_allowed_position i)
            (projected_minutes i) (avg_minutes i) ;;
  simulated_points <- monte_carlo_simulation projected_points posterior_sigma
            (simulations i) z ;;
  fl <- apply_floor_adjustment projected_points
            (opp_points_allowed_position i) (floor_percentage i) ;;
  let '(final_points, floor_triggered) := fl in
  prob_over_line <- Np.mean (Np.greater simulated_points (line i)) ;;
  ev <- calculate_ev prob_over_line (odds i) ;;
  let edge_percentage := prob_over_line * 100 - 50 in
  let bet_recommendation := get_bet_recommendation edge_percentage in
  Value (mkOutputs posterior_mu posterior_sigma projected_points
           simulated_points final_points floor_triggered prob_over_line ev
           edge_percentage bet_recommendation).

(** ** [bayesian_update] on binary64 numbers *)

Module Binary64.

Import PrimFloat.

(** [x / y] on Python floats. *)
Definition truediv (x y : float) : result float :=
  if PrimFloat.eqb y 0%float then Fails ZeroDivisionError
  else Value (PrimFloat.div x y).

(** [x ** 2] on a Python float: the square, or [OverflowError] when a
    finite [x] has a square out of range. *)
Definition square (x : float) : result float :=
  let y := PrimFloat.mul x x in
  if PrimFloat.is_infinity y && negb (PrimFloat.is_infinity x)
  then Fails OverflowError else Value y.

Definition no_history (games_played : option float) : bool :=
  match games_played with
  | None => true
  | Some g => PrimFloat.eqb g 0%float
  end.

(** Source lines 98-103, every subexpression in the order Python
    evaluates it; [np.sqrt] is the correctly rounded square root and
    yields nan below zero. *)
Definition bayesian_update (games_played : option float)
    (prior_mu prior_sigma recent_mu recent_games : float)
  : result (float * float) :=
  if no_history games_played then Value (prior_mu, prior_sigma)
  else
    s1 <- square prior_sigma ;;
    a <- truediv prior_mu s1 ;;
    s2 <- square prior_sigma ;;
    b <- truediv (PrimFloat.mul recent_games recent_mu) s2 ;;
    s3 <- square prior_sigma ;;
    c <- truediv 1%float s3 ;;
    s4 <- square prior_sigma ;;
    d <- truediv recent_games s4 ;;
    posterior_mu <- truediv (PrimFloat.add a b) (PrimFloat.add c d) ;;
    s5 <- square prior_sigma ;;
    c' <- truediv 1%float s5 ;;
    s6 <- square prior_sigma ;;
    d' <- truediv recent_games s6 ;;
    v <- truediv 1%float (PrimFloat.add c' d') ;;
    Value (posterior_mu, PrimFloat.sqrt v).

(** Source lines 108-110. *)
Definition odds_decimal (odds : float) : result float :=
  if PrimFloat.ltb odds 0%float
  then q <- truediv 100%float (PrimFloat.abs odds) ;;
       Value (PrimFloat.add 1%float q)
  else q <- truediv odds 100%float ;; Value (PrimFloat.add q 1%float).

Definition calculate_ev (prob_over odds : float) : result float :=
  od <- odds_decimal odds ;;
  Value (PrimFloat.sub (PrimFloat.mul prob_over od)
           (PrimFloat.sub 1%float prob_over)).

(** Source lines 117-122. *)
Definition calculate_projected_points
    (mean_points recent_avg_points opp_points_allowed
     projected_minutes avg_minutes : float) : result float :=
  let weighted_avg :=
    PrimFloat.add (PrimFloat.mul 0.6%float mean_points)
      (PrimFloat.mul 0.4%float recent_avg_points) in
  let opponent_adjustment :=
    PrimFloat.mul (PrimFloat.sub opp_points_allowed mean_points) 0.25%float in
  minutes_adjustment <-
    (if PrimFloat.ltb 0%float avg_minutes
     then truediv projected_minutes avg_minutes
     else Value 1%float) ;;
  Value (PrimFloat.mul (PrimFloat.add weighted_avg opponent_adjustment)
           minutes_adjustment).

(** The standard normal deviates of the generator, as binary64 numbers. *)
Definition Draws : Type := nat -> float.

(** Source lines 105-106.  [np.random.normal] raises [ValueError] for a
    scale that is not nan and has its sign bit set, which negative numbers
    and -0.0 have, and for a negative size; a sample is
    [loc + scale * z k]. *)
Definition monte_carlo_simulation (mu sigma : float) (sims : Z) (z : Draws)
  : result (list float) :=
  if negb (PrimFloat.is_nan sigma) && PrimFloat.get_sign sigma
  then Fails ValueError
  else if (sims <? 0)%Z then Fails ValueError
  else Value (map (fun k => PrimFloat.add mu (PrimFloat.mul sigma (z k)))
                (seq 0 (Z.to_nat sims))).

End Binary64.

(** ** Auxiliary definitions for the statements *)

(** The part of the outputs that constitutes the betting analysis. *)
Definition betting_analysis (o : Outputs) : R * R * R * string :=
  (prob_over_line o, ev o, edge_percentage o, bet_recommendation o).

Definition map_result {A B : Type} (f : A -> B) (m : result A) : result B :=
  match m with
  | Value a => Value (f a)
  | Fails e => Fails e
  end.

(** The same inputs with another position of the floor slider. *)
Definition with_floor (i : Inputs) (p : R) : Inputs :=
  mkInputs (mean_points i) (std_dev_points i) (games_played i)
    (recent_avg_points i) (recent_games i) (opp_points_allowed_position i)
    (projected_minutes i) (avg_minutes i) p (line i) (odds i)
    (simulations i).

(** The input domain of the data model: a positive standard deviation, a
    non-negative number of recent games, and a simulation count within the
    range of the slider. *)
Definition valid_inputs (i : Inputs) : Prop :=
  0 < std_dev_points i /\ 0 <= recent_games i /\
  (1000 <= simulations i <= 20000)%Z.

(** The placeholder values of the sidebar widgets. *)
Definition default_inputs : Inputs :=
  mkInputs 20 1 None 22 5 22 35 34 50 20.5 (-110) 10000.

(** The placeholder values with the floor slider at 100: the floor,
    [22 * (100/100) = 22], lies above the raw projection,
    [21.3 * 35/34]. *)
Definition full_floor_inputs : Inputs :=
  mkInputs 20 1 None 22 5 22 35 34 100 20.5 (-110) 10000.

(** A generator that always delivers the deviate [0]. *)
Definition zero_draws : Draws := fun _ => 0.

(** The same inputs with another number of games played. *)
Definition with_games_played (i : Inputs) (g : option R) : Inputs :=
  mkInputs (mean_points i) (std_dev_points i) g
    (recent_avg_points i) (recent_games i) (opp_points_allowed_position i)
    (projected_minutes i) (avg_minutes i) (floor_percentage i) (line i)
    (odds i) (simulations i).

(** The tier on the other side of the line. *)
Definition mirror (r : Recommendation) : Recommendation :=
  match r with
  | VeryStrongOver => VeryStrongUnder
  | StrongOver => StrongUnder
  | GoodOver => GoodUnder
  | NoBet => NoBet
  | GoodUnder => GoodOver
  | StrongUnder => StrongOver
  | VeryStrongUnder => VeryStrongOver
  end.

(** ** The profile store (source lines 10-95)

    The part of the script that runs before the simulation: it loads the
    saved profiles, offers them in a dropdown, creates the widgets with the
    values of the selected profile, and handles the two buttons.  The
    widgets are the boundary to the user: what is modelled of a widget is
    the value it is created with, and the values the user leaves in the
    widgets are parameters of the script.  The stored values are taken to
    be values the widgets produced; a file edited by hand into a value of
    the wrong type or out of the range of a slider makes the widget itself
    refuse it, which is outside this model. *)

Module Store.

(** The Python values of a saved profile. *)
Inductive value : Type :=
| VStr (s : string)
| VNum (r : R)
| VNone.

Inductive exn : Type :=
| KeyError      (* d[k] on a missing key *)
| ValueError.   (* list.index on a missing element *)

Inductive outcome (A : Type) : Type :=
| Done (a : A)
| Raised (e : exn).

Arguments Done {A} a.
Arguments Raised {A} e.

(** A Python dict with string keys: the items in insertion order. *)
Definition dict (V : Type) : Type := list (string * V).

Fixpoint lookup {V : Type} (d : dict V) (k : string) : option V :=
  match d with
  | [] => None
  | (k', v) :: d' => if String.eqb k' k then Some v else lookup d' k
  end.

(** [d.get(k, default)]. *)
Definition get {V : Type} (d : dict V) (k : string) (default : V) : V :=
  match lookup d k with
  | Some v => v
  | None => default
  end.

(** [d[k] = v]: an existing key keeps its place, a new one goes last. *)
Fixpoint set {V : Type} (d : dict V) (k : string) (v : V) : dict V :=
  match d with
  | [] => [(k, v)]
  | (k', v') :: d' =>
      if String.eqb k' k then (k, v) :: d' else (k', v') :: set d' k v
  end.

(** [d.pop(k, None)], for its effect on [d]. *)
Fixpoint pop {V : Type} (d : dict V) (k : string) : dict V :=
  match d with
  | [] => []
  | (k', v') :: d' => if String.eqb k' k then d' else (k', v') :: pop d' k
  end.

(** [list(d.keys())]. *)
Definition keys {V : Type} (d : dict V) : list string := map fst d.

(** The file [player_data.json]: absent, or holding the profiles that
    [json.dump] wrote, which [json.load] gives back. *)
Definition FileSystem : Type := option (dict (dict value)).

Definition load_all_players (fs : FileSystem) : dict (dict value) :=
  match fs with
  | Some players => players
  | None => []
  end.

Definition save_all_players (players : dict (dict value)) : FileSystem :=
  Some players.

(** Lines 33-36: the profile behind the selection of the dropdown. *)
Definition player_data (players : dict (dict value)) (selected_player : string)
  : outcome (dict value) :=
  if negb (String.eqb selected_player "New Player") then
    match lookup players selected_player with
    | Some d => Done d
    | None => Raised KeyError
    end
  else Done [].

Definition positions : list string := ["PG"; "SG"; "SF"; "PF"; "C"].

(** [x == v] for a string [x] of a list and a value [v]. *)
Definition equals (x : string) (v : value) : bool :=
  match v with
  | VStr s => String.eqb x s
  | _ => false
  end.

(** [l.index(v)]. *)
Fixpoint index (l : list string) (v : value) : outcome nat :=
  match l with
  | [] => Raised ValueError
  | x :: l' =>
      if equals x v then Done 0%nat
      else match index l' v with
           | Done n => Done (S n)
           | Raised e => Raised e
           end
  end.

(** The values of the number inputs and sliders, named by their keys. *)
Record Fields : Type := mkFields {
  mean_points : value;
  std_dev_points : value;
  games_played : value;
  recent_avg_points : value;
  recent_games : value;
  opp_points_allowed_position : value;
  projected_minutes : value;
  avg_minutes : value;
  floor_percentage : value;
  line : value;
  odds : value;
  simulations : value
}.

(** Lines 39-69: the values the widgets are created with.  The text input
    gets the stored name, the position dropdown shows the option at the
    index of the stored position, every other widget gets the stored value
    of its key, or its placeholder. *)
Definition sidebar (player_data : dict value)
  : outcome (value * string * Fields) :=
  let player_name := get player_data "player_name" (VStr "Example Player") in
  match index positions (get player_data "player_position" (VStr "PG")) with
  | Raised e => Raised e
  | Done idx =>
      let player_position := nth idx positions "" in
      Done (player_name, player_position,
            mkFields
              (get player_data "mean_points" (VNum 20))
              (get player_data "std_dev_points" (VNum 1))
              (get player_data "games_played" VNone)
              (get player_data "recent_avg_points" (VNum 22))
              (get player_data "recent_games" (VNum 5))
              (get player_data "opp_points_allowed_position" (VNum 22))
              (get player_data "projected_minutes" (VNum 35))
              (get player_data "avg_minutes" (VNum 34))
              (get player_data "floor_percentage" (VNum 50))
              (get player_data "line" (VNum 20.5))
              (get player_data "odds" (VNum (-110)))
              (get player_data "simulations" (VNum 10000)))
  end.

(** Lines 73-88: the dict saved for a player. *)
Definition profile (player_name player_position : string) (f : Fields)
  : dict value :=
  [ ("player_name", VStr player_name);
    ("player_position", VStr player_position);
    ("mean_points", mean_points f);
    ("std_dev_points", std_dev_points f);
    ("games_played", games_played f);
    ("recent_avg_points", recent_avg_points f);
    ("recent_games", recent_games f);
    ("opp_points_allowed_position", opp_points_allowed_position f);
    ("line", line f);
    ("odds", odds f);
    ("simulations", simulations f);
    ("floor_percentage", floor_percentage f);
    ("projected_minutes", projected_minutes f);
    ("avg_minutes", avg_minutes f) ].

(** Lines 72-90: the button "Save Player Data". *)
Definition save_button (clicked : bool) (players : dict (dict value))
    (fs : FileSystem) (player_name player_position : string) (f : Fields)
  : dict (dict value) * FileSystem :=
  if clicked then
    let players' := set players player_name
                      (profile player_name player_position f) in
    (players', save_all_players players')
  else (players, fs).

(** Lines 92-95: the button "Delete Player Data". *)
Definition delete_button (clicked : bool) (players : dict (dict value))
    (fs : FileSystem) (selected_player : string)
  : dict (dict value) * FileSystem :=
  if clicked && negb (String.eqb selected_player "New Player") then
    let players' := pop players selected_player in
    (players', save_all_players players')
  else (players, fs).

(** Lines 26-95, one run of the script up to the simulation: the file
    system it leaves.  [player_name], [player_position] and [f] are the
    values in the widgets when the buttons are handled. *)
Definition script (fs : FileSystem) (selected_player : string)
    (player_name player_position : string) (f : Fields)
    (save_clicked delete_clicked : bool) : outcome FileSystem :=
  let players := load_all_players fs in
  match player_data players selected_player with
  | Raised e => Raised e
  | Done data =>
      match sidebar data with
      | Raised e => Raised e
      | Done _ =>
          let '(players1, fs1) :=
            save_button save_clicked players fs
              player_name player_position f in
          let '(_, fs2) :=
            delete_button delete_clicked players1 fs1 selected_player in
          Done fs2
      end
  end.

(** The options of the player dropdown (line 31). *)
Definition options (players : dict (dict value)) : list string :=
  "New Player" :: keys players.

(** The values of the number inputs and sliders for a new player. *)
Definition placeholders : Fields :=
  mkFields (VNum 20) (VNum 1) VNone (VNum 22) (VNum 5) (VNum 22) (VNum 35)
    (VNum 34) (VNum 50) (VNum 20.5) (VNum (-110)) (VNum 10000).

End Store.

(** ** The comparison operators and the division *)

Lemma lt_true (x y : R) : x < y -> Py.lt x y = true.
Proof. intros H; unfold Py.lt; destruct (Rlt_dec x y); [reflexivity | lra]. Qed.

Lemma lt_false (x y : R) : y <= x -> Py.lt x y = false.
Proof. intros H; unfold Py.lt; destruct (Rlt_dec x y); [lra | reflexivity]. Qed.

Lemma le_true (x y : R) : x <= y -> Py.le x y = true.
Proof. intros H; unfold Py.le; destruct (Rle_dec x y); [reflexivity | lra]. Qed.

Lemma le_false (x y : R) : y < x -> Py.le x y = false.
Proof. intros H; unfold Py.le; destruct (Rle_dec x y); [lra | reflexivity]. Qed.

Lemma eq_false (x y : R) : x <> y -> Py.eq x y = false.
Proof.
  intros H; unfold Py.eq; destruct (Req_dec_T x y); [contradiction | reflexivity].
Qed.

Lemma eq_true (x : R) : Py.eq x x = true.
Proof. unfold Py.eq; destruct (Req_dec_T x x); [reflexivity | contradiction]. Qed.

Lemma truediv_value (x y : R) : y <> 0 -> x /! y = Value (x / y).
Proof.
  intros H; unfold Py.truediv; destruct (Req_dec_T y 0); [contradiction | reflexivity].
Qed.

Lemma truediv_zero (x : R) : x /! 0 = Fails ZeroDivisionError.
Proof.
  unfold Py.truediv; destruct (Req_dec_T 0 0); [reflexivity | contradiction].
Qed.

Lemma truediv_100 (x : R) : x /! 100 = Value (x / 100).
Proof. apply truediv_value; lra. Qed.

Lemma max_ge_l (a b : R) : a <= Py.max a b.
Proof. unfold Py.max, Py.gt, Py.lt; destruct (Rlt_dec a b); lra. Qed.

Lemma max_ge_r (a b : R) : b <= Py.max a b.
Proof. unfold Py.max, Py.gt, Py.lt; destruct (Rlt_dec a b); lra. Qed.

Lemma max_cases (a b : R) :
  (a < b /\ Py.max a b = b) \/ (b <= a /\ Py.max a b = a).
Proof. unfold Py.max, Py.gt, Py.lt; destruct (Rlt_dec a b); [left | right]; split; lra. Qed.

(** Rewriting with the comparisons whose outcome [lra] can decide. *)
Ltac py_compare :=
  repeat first
    [ rewrite lt_true by lra
    | rewrite lt_false by lra
    | rewrite le_true by lra
    | rewrite le_false by lra ].

(** ** Odds conversion and expected value *)

Lemma odds_decimal_nonneg (odds : R) :
  0 <= odds -> odds_decimal odds = Value (odds / 100 + 1).
Proof.
  intros H; unfold odds_decimal.
  rewrite lt_false by lra. rewrite truediv_100. reflexivity.
Qed.

Lemma odds_decimal_neg (odds : R) :
  odds < 0 -> odds_decimal odds = Value (1 + 100 / Rabs odds).
Proof.
  intros H; unfold odds_decimal, Py.abs.
  rewrite lt_true by lra.
  rewrite truediv_value; [reflexivity |].
  apply Rabs_no_R0; lra.
Qed.

Lemma odds_decimal_total (odds : R) : exists m, odds_decimal odds = Value m.
Proof.
  destruct (Rlt_dec odds 0).
  - eexists; apply odds_decimal_neg; assumption.
  - eexists; apply odds_decimal_nonneg; lra.
Qed.

Lemma calculate_ev_total (p odds : R) : exists v, calculate_ev p odds = Value v.
Proof.
  unfold calculate_ev. destruct (odds_decimal_total odds) as [m ->].
  simpl. eexists; reflexivity.
Qed.

(** C2, as stated, fails: at [odds = 0] the conversion yields the
    multiplier 1 and [calculate_ev] returns a value. *)
Lemma calculate_ev_zero_odds_returns :
  odds_decimal 0 = Value 1 /\ calculate_ev (1 / 2) 0 = Value 0.
Proof.
  assert (E : odds_decimal 0 = Value 1).
  { rewrite odds_decimal_nonneg by lra. f_equal; lra. }
  split; [exact E |].
  unfold calculate_ev; rewrite E; simpl. f_equal; lra.
Qed.

(** C2 (amended): the odds conversion never fails.  With [odds = 0] it takes
    the branch of the non-negative odds and yields the multiplier
    [0/100 + 1 = 1], so that [calculate_ev p 0 = p*1 - (1-p)]; the division
    [100 / abs(odds)] is evaluated for negative odds only. *)
Theorem calculate_ev_zero_odds (p : R) :
  odds_decimal 0 = Value 1 /\
  calculate_ev p 0 = Value (p * 1 - (1 - p)) /\
  (forall odds, exists m, odds_decimal odds = Value m).
Proof.
  assert (E : odds_decimal 0 = Value 1).
  { rewrite odds_decimal_nonneg by lra. f_equal; lra. }
  repeat split.
  - exact E.
  - unfold calculate_ev; rewrite E; reflexivity.
  - exact odds_decimal_total.
Qed.

(** ** Recommendation tiers *)

Lemma recommendation_no_bet (e : R) :
  -10 < e < 10 -> get_bet_recommendation e = recommendation_text NoBet.
Proof.
  intros [Hlo Hhi]; unfold get_bet_recommendation, Py.ge.
  py_compare. reflexivity.
Qed.

(** C7: the thresholds are closed on the stated side and tested from the
    largest magnitude down: 50 is a very strong over, 49.99 a strong over,
    10 a good over, -10 a good under, 0 no bet, and every edge strictly
    between -10 and 10 is no bet. *)
Theorem get_bet_recommendation_boundaries :
  get_bet_recommendation 50 = recommendation_text VeryStrongOver /\
  get_bet_recommendation 49.99 = recommendation_text StrongOver /\
  get_bet_recommendation 10 = recommendation_text GoodOver /\
  get_bet_recommendation (-10) = recommendation_text GoodUnder /\
  get_bet_recommendation 0 = recommendation_text NoBet /\
  (forall e, -10 < e < 10 ->
     get_bet_recommendation e = recommendation_text NoBet).
Proof.
  repeat split;
    try (unfold get_bet_recommendation, Py.ge; py_compare; reflexivity).
  apply recommendation_no_bet.
Qed.

Lemma get_bet_recommendation_boundaries_witness :
  -10 < 3 < 10 /\ get_bet_recommendation 3 = recommendation_text NoBet.
Proof.
  assert (H : -10 < 3 < 10) by lra.
  split; [exact H |].
  exact (proj2 (proj2 (proj2 (proj2 (proj2
           get_bet_recommendation_boundaries)))) 3 H).
Defined.

(** ** Projection *)

Lemma calculate_projected_points_pos (mean recent opp minutes avg : R) :
  0 < avg ->
  calculate_projected_points mean recent opp minutes avg
    = Value ((0.6 * mean + 0.4 * recent + (opp - mean) * 0.25)
             * (minutes / avg)).
Proof.
  intros Hpos. unfold calculate_projected_points, Py.gt.
  rewrite lt_true by assumption.
  rewrite truediv_value by lra. reflexivity.
Qed.

Lemma calculate_projected_points_nonpos (mean recent opp minutes avg : R) :
  avg <= 0 ->
  calculate_projected_points mean recent opp minutes avg
    = Value ((0.6 * mean + 0.4 * recent + (opp - mean) * 0.25) * 1).
Proof.
  intros Hle. unfold calculate_projected_points, Py.gt.
  rewrite lt_false by assumption. reflexivity.
Qed.

Lemma calculate_projected_points_returns (mean recent opp minutes avg : R) :
  exists pp, calculate_projected_points mean recent opp minutes avg = Value pp.
Proof.
  destruct (Rlt_dec 0 avg).
  - eexists; apply calculate_projected_points_pos; assumption.
  - eexists; apply calculate_projected_points_nonpos; lra.
Qed.

(** C9: [calculate_projected_points] is total and never divides by zero.
    The division [projected_minutes / avg_minutes] is evaluated only when
    [avg_minutes > 0]; for every other [avg_minutes], zero included, the
    minutes ratio is 1; in both cases the function returns
    [(0.6*mean + 0.4*recent + (opp - mean)*0.25) * ratio] and raises no
    error. *)
Theorem calculate_projected_points_total
    (mean recent opp minutes avg : R) :
  exists ratio,
    calculate_projected_points mean recent opp minutes avg
      = Value ((0.6 * mean + 0.4 * recent + (opp - mean) * 0.25) * ratio) /\
    (0 < avg -> ratio = minutes / avg) /\
    (avg <= 0 -> ratio = 1).
Proof.
  destruct (Rlt_dec 0 avg) as [Hpos | Hnpos].
  - exists (minutes / avg).
    rewrite calculate_projected_points_pos by assumption.
    split; [reflexivity | split; intros; [reflexivity | lra]].
  - exists 1.
    rewrite calculate_projected_points_nonpos by lra.
    split; [reflexivity | split; intros; [lra | reflexivity]].
Qed.

Lemma calculate_projected_points_total_witness :
  calculate_projected_points 20 22 22 35 0
    = Value ((0.6 * 20 + 0.4 * 22 + (22 - 20) * 0.25) * 1) /\
  calculate_projected_points 20 22 22 35 34
    = Value ((0.6 * 20 + 0.4 * 22 + (22 - 20) * 0.25) * (35 / 34)).
Proof.
  split.
  - destruct (calculate_projected_points_total 20 22 22 35 0)
      as [ratio [E [_ Hz]]].
    rewrite E, Hz by lra. reflexivity.
  - destruct (calculate_projected_points_total 20 22 22 35 34)
      as [ratio [E [Hp _]]].
    rewrite E, Hp by lra. reflexivity.
Defined.

(** ** Floor adjustment *)

Lemma apply_floor_adjustment_value (raw opp p : R) :
  apply_floor_adjustment raw opp p
    = Value (Py.max raw (opp * (p / 100)), Py.lt raw (opp * (p / 100))).
Proof. unfold apply_floor_adjustment. rewrite truediv_100. reflexivity. Qed.

(** C5, as stated, fails for a negative [opp_points_allowed]: raising the
    floor percentage from 0 to 100 lowers the floored value from 0 to -5. *)
Lemma floor_not_monotonic_negative_opponent :
  0 <= 0 <= 100 /\ 0 <= 100 <= 100 /\ 0 <= 100 /\
  apply_floor_adjustment (-10) (-5) 0 = Value (0, true) /\
  apply_floor_adjustment (-10) (-5) 100 = Value (-5, true) /\
  ~ 0 <= -5.
Proof.
  repeat split; try lra.
  - rewrite apply_floor_adjustment_value.
    unfold Py.max, Py.gt. replace (-5 * (0 / 100)) with 0 by lra.
    py_compare. reflexivity.
  - rewrite apply_floor_adjustment_value.
    unfold Py.max, Py.gt. replace (-5 * (100 / 100)) with (-5) by lra.
    py_compare. reflexivity.
Qed.

(** C5 (amended): for a non-negative [opp_points_allowed] the floored value
    is monotonic in the floor percentage, for every raw projection and
    every pair [p1 <= p2] (within [0, 100] or not). *)
Theorem apply_floor_adjustment_monotonic (raw opp p1 p2 : R) :
  0 <= opp -> p1 <= p2 ->
  exists v1 t1 v2 t2,
    apply_floor_adjustment raw opp p1 = Value (v1, t1) /\
    apply_floor_adjustment raw opp p2 = Value (v2, t2) /\
    v1 <= v2.
Proof.
  intros Hopp Hp.
  do 4 eexists.
  split; [apply apply_floor_adjustment_value |].
  split; [apply apply_floor_adjustment_value |].
  assert (Hfloor : opp * (p1 / 100) <= opp * (p2 / 100)) by nra.
  pose proof (max_ge_l raw (opp * (p2 / 100))).
  pose proof (max_ge_r raw (opp * (p2 / 100))).
  destruct (max_cases raw (opp * (p1 / 100))) as [[_ ->] | [_ ->]]; lra.
Qed.

Lemma apply_floor_adjustment_monotonic_witness :
  exists v1 t1 v2 t2,
    apply_floor_adjustment 10 22 50 = Value (v1, t1) /\
    apply_floor_adjustment 10 22 100 = Value (v2, t2) /\
    v1 <= v2.
Proof.
  apply (apply_floor_adjustment_monotonic 10 22 50 100); lra.
Defined.

(** ** Bayesian update *)

Lemma no_history_some (g : R) : g <> 0 -> no_history (Some g) = false.
Proof. intros H; simpl; apply eq_false; assumption. Qed.

(** With a history and a non-zero prior deviation, the update evaluates
    every division; the precision sum must not vanish. *)
Lemma bayesian_update_value (g mu s r n : R) :
  g <> 0 -> s <> 0 -> 1 + n <> 0 -> 0 <= 1 + n ->
  bayesian_update (Some g) mu s r n
    = Value ((mu / s ^ 2 + n * r / s ^ 2) / (1 / s ^ 2 + n / s ^ 2),
             sqrt (1 / (1 / s ^ 2 + n / s ^ 2))).
Proof.
  intros Hg Hs Hn Hn0.
  assert (Hs2 : s ^ 2 <> 0) by (apply pow_nonzero; assumption).
  assert (Hsum : 1 / s ^ 2 + n / s ^ 2 = (1 + n) / s ^ 2) by (field; assumption).
  assert (Hsum0 : 1 / s ^ 2 + n / s ^ 2 <> 0).
  { rewrite Hsum. unfold Rdiv. apply Rmult_integral_contrapositive_currified.
    - assumption.
    - apply Rinv_neq_0_compat; assumption. }
  assert (Hpos : 0 <= 1 / (1 / s ^ 2 + n / s ^ 2)).
  { rewrite Hsum.
    replace (1 / ((1 + n) / s ^ 2)) with (s ^ 2 / (1 + n)) by (field; split; assumption).
    apply Rmult_le_pos; [nra |].
    apply Rlt_le, Rinv_0_lt_compat. lra. }
  unfold bayesian_update. rewrite no_history_some by assumption.
  repeat (rewrite truediv_value by assumption; cbn [bind]).
  unfold Np.sqrt. rewrite lt_false by assumption.
  reflexivity.
Qed.

Lemma bayesian_update_no_history (gp : option R) (mu s r n : R) :
  no_history gp = true -> bayesian_update gp mu s r n = Value (mu, s).
Proof. intros H; unfold bayesian_update; rewrite H; reflexivity. Qed.

(** On the input domain of the data model the update returns a pair, and
    the deviation it returns is not negative. *)
Lemma bayesian_update_valid (gp : option R) (mu s r n : R) :
  0 < s -> 0 <= n ->
  exists mu' s', bayesian_update gp mu s r n = Value (mu', s') /\ 0 <= s'.
Proof.
  intros Hs Hn.
  destruct (no_history gp) eqn:Hgp.
  - exists mu, s. split; [apply bayesian_update_no_history; assumption | lra].
  - destruct gp as [g |]; [| discriminate].
    assert (Hg : g <> 0).
    { intros ->. simpl in Hgp. rewrite eq_true in Hgp. discriminate. }
    do 2 eexists. split.
    + apply bayesian_update_value; lra.
    + apply sqrt_pos.
Qed.

Lemma binary64_no_history_unchanged
    (gp : option PrimFloat.float) (mu s r n : PrimFloat.float) :
  Binary64.no_history gp = true ->
  Binary64.bayesian_update gp mu s r n = Value (mu, s).
Proof. intros H; unfold Binary64.bayesian_update; rewrite H; reflexivity. Qed.

(** C8, as stated, fails on the numbers the program computes with: after
    ten games played, the prior (20, 3) and [recent_games = 0] give the
    posterior mean 20.000000000000004 (20/9 and 1/9 are rounded before
    they are divided), not 20. *)
Lemma bayesian_update_zero_recent_games_inexact :
  Binary64.bayesian_update (Some 10%float) 20%float 3%float 22%float 0%float
    = Value (0x1.4000000000001p+4%float, 3%float) /\
  PrimFloat.eqb 0x1.4000000000001p+4%float 20%float = false.
Proof. split; vm_compute; reflexivity. Qed.

(** C8 (amended): without a history ([games_played] is [None] or zero) the
    update returns the prior pair as it is, bit for bit.  With a history,
    [recent_games = 0] and a positive prior deviation it evaluates the
    update formula, whose value is the prior pair in exact arithmetic. *)
Theorem bayesian_update_unchanged :
  (forall (gp : option PrimFloat.float) (mu s r n : PrimFloat.float),
     gp = None \/ gp = Some 0%float ->
     Binary64.bayesian_update gp mu s r n = Value (mu, s)) /\
  (forall (gp : option R) (mu s r n : R),
     gp = None \/ gp = Some 0 \/ (n = 0 /\ 0 < s) ->
     bayesian_update gp mu s r n = Value (mu, s)).
Proof.
  split.
  - intros gp mu s r n [-> | ->]; apply binary64_no_history_unchanged;
      reflexivity.
  - intros gp mu s r n [-> | [-> | [-> Hs]]].
    + reflexivity.
    + apply bayesian_update_no_history. simpl. apply eq_true.
    + destruct (no_history gp) eqn:Hgp;
        [apply bayesian_update_no_history; assumption |].
      destruct gp as [g |]; [| discriminate].
      assert (Hg : g <> 0).
      { intros ->. simpl in Hgp. rewrite eq_true in Hgp. discriminate. }
      rewrite bayesian_update_value by lra.
      f_equal. f_equal.
      * field. lra.
      * replace (1 / (1 / s ^ 2 + 0 / s ^ 2)) with (s ^ 2) by (field; lra).
        replace (s ^ 2) with (Rsqr s) by (unfold Rsqr; ring).
        apply sqrt_Rsqr. lra.
Qed.

Lemma bayesian_update_unchanged_witness :
  Binary64.bayesian_update None 20%float 3%float 22%float 5%float
    = Value (20%float, 3%float) /\
  bayesian_update (Some 0) 20 1 22 5 = Value (20, 1) /\
  bayesian_update (Some 10) 20 3 22 0 = Value (20, 3).
Proof.
  split; [| split].
  - apply (proj1 bayesian_update_unchanged). left; reflexivity.
  - apply (proj2 bayesian_update_unchanged). right; left; reflexivity.
  - apply (proj2 bayesian_update_unchanged). right; right.
    split; [reflexivity | lra].
Defined.




(** ** The sampler *)

Lemma normal_samples_length (loc scale : R) (size : Z) (z : Draws) :
  List.length (Np.normal_samples loc scale size z) = Z.to_nat size.
Proof.
  unfold Np.normal_samples. rewrite length_map, length_seq. reflexivity.
Qed.

Lemma normal_samples_nth (loc scale : R) (size : Z) (z : Draws) (k : nat) :
  (k < Z.to_nat size)%nat ->
  nth k (Np.normal_samples loc scale size z) 0 = loc + scale * z k.
Proof.
  intros Hk. unfold Np.normal_samples.
  rewrite (nth_indep _ 0 (loc + scale * z 0%nat))
    by (rewrite length_map, length_seq; assumption).
  rewrite (map_nth (fun k => loc + scale * z k)).
  rewrite seq_nth by assumption. reflexivity.
Qed.

Lemma monte_carlo_simulation_value (mu sigma : R) (sims : Z) (z : Draws) :
  0 <= sigma -> (0 <= sims)%Z ->
  monte_carlo_simulation mu sigma sims z
    = Value (Np.normal_samples mu sigma sims z).
Proof.
  intros Hsigma Hsims. unfold monte_carlo_simulation, Np.random_normal.
  rewrite lt_false by assumption.
  destruct (Z.ltb_spec sims 0); [lia | reflexivity].
Qed.





(** ** Probability of the over *)

Lemma count_true_le_length (bs : list bool) :
  (Np.count_true bs <= List.length bs)%nat.
Proof. unfold Np.count_true. apply filter_length_le. Qed.

Lemma mean_bounds (bs : list bool) :
  bs <> [] -> exists p, Np.mean bs = Value p /\ 0 <= p <= 1.
Proof.
  intros Hne. destruct bs as [| b bs]; [contradiction |].
  eexists. split; [reflexivity |].
  set (l := b :: bs).
  assert (Hlen : 0 < INR (List.length l)) by (apply lt_0_INR; simpl; lia).
  assert (Hcnt : INR (Np.count_true l) <= INR (List.length l))
    by (apply le_INR, count_true_le_length).
  assert (Hc0 : 0 <= INR (Np.count_true l)) by apply pos_INR.
  split.
  - apply Rmult_le_pos; [assumption |].
    apply Rlt_le, Rinv_0_lt_compat; assumption.
  - apply Rmult_le_reg_r with (r := INR (List.length l)); [assumption |].
    unfold Rdiv. rewrite Rmult_assoc, Rinv_l by lra. lra.
Qed.

Lemma greater_samples_nonempty (loc scale x : R) (size : Z) (z : Draws) :
  (0 < size)%Z -> Np.greater (Np.normal_samples loc scale size z) x <> [].
Proof.
  intros Hsize Hnil.
  apply (f_equal (@List.length bool)) in Hnil.
  unfold Np.greater in Hnil.
  rewrite length_map, normal_samples_length in Hnil. simpl in Hnil. lia.
Qed.

(** ** The script *)

(** On valid inputs every step of the script succeeds, and the outputs are
    the values of the successive calls. *)
Lemma run_value (i : Inputs) (z : Draws) :
  valid_inputs i ->
  exists pm ps pp p e,
    bayesian_update (games_played i) (mean_points i) (std_dev_points i)
      (recent_avg_points i) (recent_games i) = Value (pm, ps) /\
    0 <= ps /\
    calculate_projected_points (mean_points i) (recent_avg_points i)
      (opp_points_allowed_position i) (projected_minutes i) (avg_minutes i)
      = Value pp /\
    Np.mean (Np.greater (Np.normal_samples pp ps (simulations i) z) (line i))
      = Value p /\
    0 <= p <= 1 /\
    calculate_ev p (odds i) = Value e /\
    run i z =
      Value (mkOutputs pm ps pp (Np.normal_samples pp ps (simulations i) z)
               (Py.max pp (opp_points_allowed_position i
                           * (floor_percentage i / 100)))
               (Py.lt pp (opp_points_allowed_position i
                          * (floor_percentage i / 100)))
               p e (p * 100 - 50) (get_bet_recommendation (p * 100 - 50))).
Proof.
  intros (Hs & Hn & Hsims).
  destruct (bayesian_update_valid (games_played i) (mean_points i)
              (std_dev_points i) (recent_avg_points i) (recent_games i) Hs Hn)
    as (pm & ps & Hpost & Hps).
  destruct (calculate_projected_points_returns (mean_points i)
              (recent_avg_points i) (opp_points_allowed_position i)
              (projected_minutes i) (avg_minutes i)) as (pp & Hpp).
  destruct (mean_bounds
              (Np.greater (Np.normal_samples pp ps (simulations i) z) (line i)))
    as (p & Hp & Hp01);
    [apply greater_samples_nonempty; lia |].
  destruct (calculate_ev_total p (odds i)) as (e & He).
  exists pm, ps, pp, p, e.
  repeat (split; [first [assumption | lra] |]).
  unfold run.
  rewrite Hpost; cbn [bind].
  rewrite Hpp; cbn [bind].
  rewrite monte_carlo_simulation_value by (assumption || lia); cbn [bind].
  rewrite apply_floor_adjustment_value; cbn [bind].
  rewrite Hp; cbn [bind].
  rewrite He; cbn [bind].
  reflexivity.
Qed.

Lemma default_inputs_valid : valid_inputs default_inputs.
Proof. unfold valid_inputs, default_inputs; simpl. split; [lra | split; [lra | lia]]. Qed.

Lemma full_floor_inputs_valid : valid_inputs full_floor_inputs.
Proof. unfold valid_inputs, full_floor_inputs; simpl. split; [lra | split; [lra | lia]]. Qed.

(** The run on [full_floor_inputs] with the generator [zero_draws]: the
    raw projection is [21.3 * (35/34)], the displayed projection is the
    floor, 22, and the samples are made from the raw projection. *)
Lemma run_full_floor :
  exists o,
    run full_floor_inputs zero_draws = Value o /\
    posterior_sigma o = 1 /\
    projected_points o = 21.3 * (35 / 34) /\
    final_points o = 22 /\
    floor_triggered o = true /\
    simulated_points o =
      Np.normal_samples (21.3 * (35 / 34)) 1 10000 zero_draws.
Proof.
  destruct (run_value full_floor_inputs zero_draws full_floor_inputs_valid)
    as (pm & ps & pp & p & e & Hpost & _ & Hpp & _ & _ & _ & Hrun).
  cbn [full_floor_inputs games_played mean_points std_dev_points
       recent_avg_points recent_games opp_points_allowed_position
       projected_minutes avg_minutes floor_percentage simulations] in *.
  rewrite bayesian_update_no_history in Hpost by reflexivity.
  injection Hpost as <- <-.
  rewrite calculate_projected_points_pos in Hpp by lra.
  injection Hpp as Hpp.
  assert (Epp : pp = 21.3 * (35 / 34)) by lra.
  eexists. split; [exact Hrun |].
  cbn [posterior_sigma projected_points final_points floor_triggered
       simulated_points].
  rewrite Epp.
  replace (22 * (100 / 100)) with 22 by lra.
  repeat split.
  - unfold Py.max, Py.gt. rewrite lt_true by lra. reflexivity.
  - apply lt_true. lra.
Qed.

(** C1, as stated, fails: with the floor slider at 100 the floored
    projection is 22, yet the samples are not those of a draw around 22;
    the first one is [21.3 * (35/34) + 1 * 0]. *)
Lemma samples_not_from_floored_projection :
  exists o,
    run full_floor_inputs zero_draws = Value o /\
    final_points o = 22 /\
    nth 0 (simulated_points o) 0 = 21.3 * (35 / 34) + 1 * zero_draws 0%nat /\
    simulated_points o <>
      Np.normal_samples (final_points o) (posterior_sigma o)
        (simulations full_floor_inputs) zero_draws.
Proof.
  destruct run_full_floor as (o & Hrun & Hps & _ & Hfinal & _ & Hsamples).
  exists o. split; [exact Hrun |]. split; [exact Hfinal |].
  assert (Hfirst : nth 0 (simulated_points o) 0
                   = 21.3 * (35 / 34) + 1 * zero_draws 0%nat).
  { rewrite Hsamples. apply normal_samples_nth. lia. }
  split; [exact Hfirst |].
  intros Heq.
  apply (f_equal (fun l => nth 0 l 0)) in Heq.
  rewrite Hfirst, Hfinal, Hps in Heq.
  cbn [simulations full_floor_inputs] in Heq.
  rewrite normal_samples_nth in Heq by lia.
  unfold zero_draws in Heq. lra.
Qed.

(** C1 (amended): in every run on valid inputs the samples are drawn with
    the raw projection, the value of [calculate_projected_points], as the
    mean and the posterior deviation as the deviation; the floor adjustment
    is computed afterwards, from the same raw projection, and only yields
    the displayed [final_points] and [floor_triggered]. *)
Theorem samples_from_raw_projection (i : Inputs) (z : Draws) :
  valid_inputs i ->
  exists o,
    run i z = Value o /\
    bayesian_update (games_played i) (mean_points i) (std_dev_points i)
      (recent_avg_points i) (recent_games i)
      = Value (posterior_mu o, posterior_sigma o) /\
    calculate_projected_points (mean_points i) (recent_avg_points i)
      (opp_points_allowed_position i) (projected_minutes i) (avg_minutes i)
      = Value (projected_points o) /\
    monte_carlo_simulation (projected_points o) (posterior_sigma o)
      (simulations i) z = Value (simulated_points o) /\
    (forall k, (k < Z.to_nat (simulations i))%nat ->
       nth k (simulated_points o) 0
       = projected_points o + posterior_sigma o * z k) /\
    apply_floor_adjustment (projected_points o)
      (opp_points_allowed_position i) (floor_percentage i)
      = Value (final_points o, floor_triggered o).
Proof.
  intros Hvalid.
  destruct (run_value i z Hvalid)
    as (pm & ps & pp & p & e & Hpost & Hps & Hpp & _ & _ & _ & Hrun).
  destruct Hvalid as (_ & _ & Hsims).
  eexists. split; [exact Hrun |].
  cbn [posterior_mu posterior_sigma projected_points simulated_points
       final_points floor_triggered].
  split; [exact Hpost |]. split; [exact Hpp |].
  split; [apply monte_carlo_simulation_value; [assumption | lia] |].
  split; [intros k Hk; apply normal_samples_nth; assumption |].
  apply apply_floor_adjustment_value.
Qed.

Lemma samples_from_raw_projection_witness :
  exists o,
    run full_floor_inputs zero_draws = Value o /\
    monte_carlo_simulation (projected_points o) (posterior_sigma o)
      (simulations full_floor_inputs) zero_draws
      = Value (simulated_points o).
Proof.
  destruct (samples_from_raw_projection full_floor_inputs zero_draws)
    as (o & Hrun & _ & _ & Hmc & _).
  - unfold valid_inputs, full_floor_inputs; simpl.
    split; [lra | split; [lra | lia]].
  - exists o. split; assumption.
Defined.

(** C6: every run on valid inputs yields a probability of the over within
    [0, 1], an edge equal to that probability times 100 minus 50, and
    hence an edge within [-50, 50]. *)
Theorem run_probability_and_edge_bounds (i : Inputs) (z : Draws) :
  valid_inputs i ->
  exists o,
    run i z = Value o /\
    0 <= prob_over_line o <= 1 /\
    edge_percentage o = prob_over_line o * 100 - 50 /\
    -50 <= edge_percentage o <= 50.
Proof.
  intros Hvalid.
  destruct (run_value i z Hvalid)
    as (pm & ps & pp & p & e & _ & _ & _ & _ & Hp & _ & Hrun).
  eexists. split; [exact Hrun |].
  cbn [prob_over_line edge_percentage].
  split; [exact Hp |]. split; [reflexivity | lra].
Qed.

Lemma run_probability_and_edge_bounds_witness :
  exists o,
    run default_inputs zero_draws = Value o /\
    0 <= prob_over_line o <= 1 /\
    edge_percentage o = prob_over_line o * 100 - 50 /\
    -50 <= edge_percentage o <= 50.
Proof.
  apply (run_probability_and_edge_bounds default_inputs zero_draws).
  unfold valid_inputs, default_inputs; simpl.
  split; [lra | split; [lra | lia]].
Defined.

(** C10: two runs on the same inputs and the same draws that differ in the
    floor percentage only have the same probability of the over, expected
    value, edge and recommendation, and fail alike when they fail. *)
Theorem floor_percentage_noninterference
    (i : Inputs) (z : Draws) (p1 p2 : R) :
  map_result betting_analysis (run (with_floor i p1) z)
  = map_result betting_analysis (run (with_floor i p2) z).
Proof.
  unfold run.
  cbn [with_floor games_played mean_points std_dev_points recent_avg_points
       recent_games opp_points_allowed_position projected_minutes
       avg_minutes floor_percentage line odds simulations].
  destruct (bayesian_update (games_played i) (mean_points i)
              (std_dev_points i) (recent_avg_points i) (recent_games i))
    as [[pm ps] | err]; cbn [bind map_result]; [| reflexivity].
  destruct (calculate_projected_points (mean_points i) (recent_avg_points i)
              (opp_points_allowed_position i) (projected_minutes i)
              (avg_minutes i))
    as [pp | err]; cbn [bind map_result]; [| reflexivity].
  destruct (monte_carlo_simulation pp ps (simulations i) z)
    as [sp | err]; cbn [bind map_result]; [| reflexivity].
  rewrite !apply_floor_adjustment_value; cbn [bind].
  destruct (Np.mean (Np.greater sp (line i)))
    as [p | err]; cbn [bind map_result]; [| reflexivity].
  destruct (calculate_ev p (odds i))
    as [e | err]; cbn [bind map_result]; reflexivity.
Qed.

(** The floor percentage is not ignored altogether: the displayed
    projection of the placeholder inputs changes with it. *)
Remark floor_percentage_changes_display :
  exists o1 o2,
    run default_inputs zero_draws = Value o1 /\
    run (with_floor default_inputs 100) zero_draws = Value o2 /\
    final_points o1 < final_points o2.
Proof.
  destruct (run_value default_inputs zero_draws default_inputs_valid)
    as (pm & ps & pp & p & e & _ & _ & Hpp & _ & _ & _ & Hrun).
  destruct run_full_floor as (o2 & Hrun2 & _ & _ & Hfinal & _).
  eexists; exists o2. split; [exact Hrun |]. split; [exact Hrun2 |].
  cbn [final_points]. rewrite Hfinal.
  cbn [default_inputs mean_points recent_avg_points
       opp_points_allowed_position projected_minutes avg_minutes
       floor_percentage] in *.
  rewrite calculate_projected_points_pos in Hpp by lra.
  injection Hpp as Hpp.
  destruct (max_cases pp (22 * (50 / 100))) as [[_ ->] | [_ ->]]; lra.
Qed.

(** * Further properties of the simulation functions *)

(** ** Recommendation tiers, all of them *)

Lemma recommendation_text_injective (r1 r2 : Recommendation) :
  recommendation_text r1 = recommendation_text r2 -> r1 = r2.
Proof. destruct r1, r2; simpl; intros H; try reflexivity; discriminate H. Qed.

(** X1: the tier of every edge outside (-10, 10): very strong from 50 on,
    strong on [31, 50), good on [10, 31), and the same on the negative
    side with the bounds mirrored. *)
Theorem get_bet_recommendation_tiers (e : R) :
  (50 <= e -> get_bet_recommendation e = recommendation_text VeryStrongOver) /\
  (31 <= e < 50 -> get_bet_recommendation e = recommendation_text StrongOver) /\
  (10 <= e < 31 -> get_bet_recommendation e = recommendation_text GoodOver) /\
  (e <= -50 ->
     get_bet_recommendation e = recommendation_text VeryStrongUnder) /\
  (-50 < e <= -31 ->
     get_bet_recommendation e = recommendation_text StrongUnder) /\
  (-31 < e <= -10 -> get_bet_recommendation e = recommendation_text GoodUnder).
Proof.
  repeat split; intros H;
    unfold get_bet_recommendation, Py.ge; py_compare; reflexivity.
Qed.

Lemma get_bet_recommendation_tiers_witness :
  get_bet_recommendation 75 = recommendation_text VeryStrongOver /\
  get_bet_recommendation 30.5 = recommendation_text GoodOver /\
  get_bet_recommendation (-40) = recommendation_text StrongUnder.
Proof.
  split; [| split].
  - apply (proj1 (get_bet_recommendation_tiers 75)). lra.
  - apply (proj1 (proj2 (proj2 (get_bet_recommendation_tiers 30.5)))). lra.
  - apply (proj1 (proj2 (proj2 (proj2 (proj2
             (get_bet_recommendation_tiers (-40))))))). lra.
Defined.

(** X2: the tiers are symmetric about zero: the edge [-e] gets the tier of
    [e] on the other side of the line. *)
Theorem get_bet_recommendation_mirror (e : R) (r : Recommendation) :
  get_bet_recommendation e = recommendation_text r ->
  get_bet_recommendation (- e) = recommendation_text (mirror r).
Proof.
  intros H. unfold get_bet_recommendation, Py.ge in *.
  destruct (Rle_lt_dec 50 e);
    [| destruct (Rle_lt_dec 31 e);
       [| destruct (Rle_lt_dec 10 e);
          [| destruct (Rle_lt_dec e (-50));
             [| destruct (Rle_lt_dec e (-31));
                [| destruct (Rle_lt_dec e (-10))]]]]];
    revert H; py_compare; intros H;
    destruct r; simpl in H; try discriminate H; reflexivity.
Qed.

Lemma get_bet_recommendation_mirror_witness :
  get_bet_recommendation (- 35) = recommendation_text StrongUnder.
Proof.
  apply (get_bet_recommendation_mirror 35 StrongOver).
  unfold get_bet_recommendation, Py.ge; py_compare; reflexivity.
Defined.

(** ** Odds and expected value *)

(** The multiplier is at least 1, and [calculate_ev] is
    [p * m - (1 - p)] for the multiplier [m] of the odds. *)
Lemma calculate_ev_multiplier (odds : R) :
  exists m,
    odds_decimal odds = Value m /\ 1 <= m /\ (odds <> 0 -> 1 < m) /\
    forall p, calculate_ev p odds = Value (p * m - (1 - p)).
Proof.
  destruct (Rlt_dec odds 0) as [Hneg | Hpos].
  - exists (1 + 100 / Rabs odds).
    assert (Habs : 0 < Rabs odds) by (apply Rabs_pos_lt; lra).
    assert (Hq : 0 < 100 / Rabs odds)
      by (apply Rmult_lt_0_compat; [lra | apply Rinv_0_lt_compat; exact Habs]).
    assert (E : odds_decimal odds = Value (1 + 100 / Rabs odds))
      by (apply odds_decimal_neg; exact Hneg).
    repeat split; try lra; try exact E.
    intros p. unfold calculate_ev. rewrite E. reflexivity.
  - exists (odds / 100 + 1).
    assert (E : odds_decimal odds = Value (odds / 100 + 1))
      by (apply odds_decimal_nonneg; lra).
    repeat split; try lra; try exact E.
    intros p. unfold calculate_ev. rewrite E. reflexivity.
Qed.

(** X3: in exact arithmetic the decimal multiplier of the odds is never
    below 1, and it is 1 for the odds 0 only.  On binary64 numbers the sum
    [1 + 100/|odds|] is rounded: the odds -1e18 give exactly 1 too. *)
Theorem odds_decimal_at_least_one :
  (forall odds : R,
     exists m, odds_decimal odds = Value m /\ 1 <= m /\ (m = 1 <-> odds = 0)) /\
  Binary64.odds_decimal (-1e18)%float = Value 1%float.
Proof.
  split; [| reflexivity].
  intros odds.
  destruct (calculate_ev_multiplier odds) as (m & E & Hge & Hgt & _).
  exists m. repeat split; try assumption.
  - intros Hm. destruct (Req_dec_T odds 0) as [H0 | H0]; [exact H0 |].
    specialize (Hgt H0). lra.
  - intros ->. rewrite odds_decimal_nonneg in E by lra.
    injection E as <-. lra.
Qed.

(** X4: in exact arithmetic the expected value grows strictly with the
    probability of the over, whatever the odds.  On binary64 numbers
    probabilities too close to each other get the same value: 1e-30 and
    2e-30 both give -1 at the odds -110. *)
Theorem calculate_ev_increasing :
  (forall p1 p2 odds : R,
     p1 < p2 ->
     exists e1 e2,
       calculate_ev p1 odds = Value e1 /\ calculate_ev p2 odds = Value e2 /\
       e1 < e2) /\
  (Binary64.calculate_ev 1e-30%float (-110)%float = Value (-1)%float /\
   Binary64.calculate_ev 2e-30%float (-110)%float = Value (-1)%float).
Proof.
  split; [| split; reflexivity].
  intros p1 p2 odds Hp.
  destruct (calculate_ev_multiplier odds) as (m & _ & Hge & _ & E).
  do 2 eexists. split; [apply E |]. split; [apply E |]. nra.
Qed.

Lemma calculate_ev_increasing_witness :
  exists e1 e2,
    calculate_ev 0.4 (-110) = Value e1 /\ calculate_ev 0.6 (-110) = Value e2 /\
    e1 < e2.
Proof. apply (proj1 calculate_ev_increasing 0.4 0.6 (-110)). lra. Defined.

(** X5: in exact arithmetic, for a probability within [0, 1] the expected
    value lies between -1, the stake, and the multiplier of the odds.  On
    binary64 numbers odds so close to zero that the multiplier overflows
    give no number at all: the probability 0 at the odds -1e-320 gives
    [0 * infinity], which is nan. *)
Theorem calculate_ev_bounds :
  (forall p odds : R,
     0 <= p <= 1 ->
     exists m e,
       odds_decimal odds = Value m /\ calculate_ev p odds = Value e /\
       -1 <= e <= m) /\
  (exists e,
     Binary64.odds_decimal (-1e-320)%float = Value PrimFloat.infinity /\
     Binary64.calculate_ev 0%float (-1e-320)%float = Value e /\
     PrimFloat.is_nan e = true).
Proof.
  split.
  - intros p odds Hp.
    destruct (calculate_ev_multiplier odds) as (m & Em & Hge & _ & E).
    exists m. eexists. split; [exact Em |]. split; [apply E |]. nra.
  - eexists. repeat split; vm_compute; reflexivity.
Qed.

Lemma calculate_ev_bounds_witness :
  exists m e,
    odds_decimal 150 = Value m /\ calculate_ev 0.5 150 = Value e /\
    -1 <= e <= m.
Proof. apply (proj1 calculate_ev_bounds 0.5 150). lra. Defined.

(** X6: in exact arithmetic the expected value is non-negative exactly
    from the break-even probability [1 / (m + 1)] on, [m] being the
    multiplier of the odds.  On binary64 numbers the value at the
    break-even probability itself can round below zero: the odds 100 and
    the probability 1000/3000 give -1.1e-16. *)
Theorem calculate_ev_break_even :
  (forall p odds : R,
     exists m e,
       odds_decimal odds = Value m /\ calculate_ev p odds = Value e /\
       (0 <= e <-> 1 / (m + 1) <= p)) /\
  (exists m e,
     Binary64.odds_decimal 100%float = Value m /\
     Binary64.calculate_ev (PrimFloat.div 1000%float 3000%float) 100%float
       = Value e /\
     PrimFloat.leb (PrimFloat.div 1%float (PrimFloat.add m 1%float))
       (PrimFloat.div 1000%float 3000%float) = true /\
     PrimFloat.ltb e 0%float = true).
Proof.
  split.
  - intros p odds.
    destruct (calculate_ev_multiplier odds) as (m & Em & Hge & _ & E).
    exists m. eexists. split; [exact Em |]. split; [apply E |].
    assert (Hm : 0 < m + 1) by lra.
    assert (Hinv : (1 / (m + 1)) * (m + 1) = 1) by (field; lra).
    split; intros H.
    + apply Rmult_le_reg_r with (r := m + 1); [exact Hm |]. lra.
    + assert (1 / (m + 1) * (m + 1) <= p * (m + 1))
        by (apply Rmult_le_compat_r; lra).
      lra.
  - do 2 eexists. repeat split; vm_compute; reflexivity.
Qed.

(** ** Floor adjustment, continued *)

(** X7: the floored value is the larger of the raw projection and the
    floor [opp * (p / 100)], and the flag tells which of the two it is: it
    is set exactly when the raw projection lies below the floor. *)
Theorem apply_floor_adjustment_is_max (raw opp p : R) :
  exists v t,
    apply_floor_adjustment raw opp p = Value (v, t) /\
    raw <= v /\ opp * (p / 100) <= v /\
    (t = true <-> raw < opp * (p / 100)) /\
    v = (if t then opp * (p / 100) else raw).
Proof.
  do 2 eexists. split; [apply apply_floor_adjustment_value |].
  split; [apply max_ge_l |]. split; [apply max_ge_r |].
  unfold Py.max, Py.gt, Py.lt.
  destruct (Rlt_dec raw (opp * (p / 100))) as [Hlt | Hge].
  - split; [split; intros; [assumption | reflexivity] | reflexivity].
  - split; [split; intros H; [discriminate H | contradiction] | reflexivity].
Qed.

(** X8: the adjustment is idempotent: applied to its own result it returns
    that result, with the flag down. *)
Theorem apply_floor_adjustment_idempotent (raw opp p v : R) (t : bool) :
  apply_floor_adjustment raw opp p = Value (v, t) ->
  apply_floor_adjustment v opp p = Value (v, false).
Proof.
  rewrite !apply_floor_adjustment_value. intros H.
  injection H as Hv _. subst v.
  pose proof (max_ge_r raw (opp * (p / 100))) as Hge.
  f_equal. f_equal.
  - unfold Py.max at 1. unfold Py.gt. rewrite lt_false by exact Hge.
    reflexivity.
  - apply lt_false. exact Hge.
Qed.

Lemma apply_floor_adjustment_idempotent_witness :
  apply_floor_adjustment (Py.max 10 (22 * (50 / 100))) 22 50
    = Value (Py.max 10 (22 * (50 / 100)), false).
Proof.
  apply (apply_floor_adjustment_idempotent 10 22 50 _
           (Py.lt 10 (22 * (50 / 100)))).
  apply apply_floor_adjustment_value.
Defined.

(** X9: a floor percentage of 0 does not switch the floor off: the floor
    is then 0, so a negative raw projection is replaced by 0 and flagged,
    whatever the opponent allows. *)
Theorem apply_floor_adjustment_zero_percent (raw opp : R) :
  exists v t,
    apply_floor_adjustment raw opp 0 = Value (v, t) /\
    0 <= v /\ (raw < 0 -> v = 0 /\ t = true) /\ (0 <= raw -> v = raw /\ t = false).
Proof.
  do 2 eexists. split; [apply apply_floor_adjustment_value |].
  replace (opp * (0 / 100)) with 0 by lra.
  split; [apply max_ge_r |].
  unfold Py.max, Py.gt. split; intros H.
  - rewrite !lt_true by exact H. split; reflexivity.
  - rewrite !lt_false by exact H. split; reflexivity.
Qed.

Lemma apply_floor_adjustment_zero_percent_witness :
  exists v t,
    apply_floor_adjustment (-3) 22 0 = Value (v, t) /\ v = 0 /\ t = true.
Proof.
  destruct (apply_floor_adjustment_zero_percent (-3) 22)
    as (v & t & E & _ & Hneg & _).
  exists v, t. split; [exact E |]. apply Hneg. lra.
Defined.

(** ** Projection, continued *)

(** X10: when the minutes do not scale the projection (no positive average
    minutes, or as many projected minutes as average ones), the projection
    is, in exact arithmetic, a weighted mean of the season average, the
    recent average and the points the opponent allows (weights 0.35, 0.4
    and 0.25): it lies within any interval that holds the three.  On
    binary64 numbers rounding can carry it past the interval by a unit in
    the last place: three inputs 0.9 give 0.9000000000000001. *)
Theorem calculate_projected_points_weighted_mean :
  (forall mean recent opp minutes avg lo hi : R,
     avg <= 0 \/ minutes = avg ->
     lo <= mean <= hi -> lo <= recent <= hi -> lo <= opp <= hi ->
     exists pp,
       calculate_projected_points mean recent opp minutes avg = Value pp /\
       pp = 0.35 * mean + 0.4 * recent + 0.25 * opp /\
       lo <= pp <= hi) /\
  (exists pp,
     Binary64.calculate_projected_points 0.9%float 0.9%float 0.9%float
       34%float 34%float = Value pp /\
     PrimFloat.ltb 0.9%float pp = true).
Proof.
  split.
  - intros mean recent opp minutes avg lo hi Hmin Hm Hr Ho.
    destruct (Rlt_dec 0 avg) as [Hpos | Hnpos].
    + destruct Hmin as [Hle | ->]; [lra |].
      eexists. split; [apply calculate_projected_points_pos; exact Hpos |].
      replace (avg / avg) with 1 by (field; lra).
      split; lra.
    + eexists. split; [apply calculate_projected_points_nonpos; lra |].
      split; lra.
  - eexists. split; vm_compute; reflexivity.
Qed.

Lemma calculate_projected_points_weighted_mean_witness :
  exists pp,
    calculate_projected_points 20 22 24 34 34 = Value pp /\
    pp = 0.35 * 20 + 0.4 * 22 + 0.25 * 24 /\
    20 <= pp <= 24.
Proof.
  apply (proj1 calculate_projected_points_weighted_mean 20 22 24 34 34 20 24);
    [right; reflexivity | lra | lra | lra].
Defined.

(** X11: with positive average minutes the projection is, in exact
    arithmetic, proportional to the projected minutes.  On binary64
    numbers the two sides can differ in the last place: three times the
    projection for 10 minutes is not the projection for 30 minutes. *)
Theorem calculate_projected_points_proportional :
  (forall mean recent opp minutes avg k : R,
     0 < avg ->
     exists pp,
       calculate_projected_points mean recent opp minutes avg = Value pp /\
       calculate_projected_points mean recent opp (k * minutes) avg
         = Value (k * pp)) /\
  (exists pp pp3,
     Binary64.calculate_projected_points 20%float 22%float 22%float
       10%float 34%float = Value pp /\
     Binary64.calculate_projected_points 20%float 22%float 22%float
       30%float 34%float = Value pp3 /\
     PrimFloat.eqb (PrimFloat.mul 3%float pp) pp3 = false).
Proof.
  split.
  - intros mean recent opp minutes avg k Hpos. eexists.
    split; [apply calculate_projected_points_pos; exact Hpos |].
    rewrite calculate_projected_points_pos by exact Hpos.
    f_equal. field. lra.
  - do 2 eexists. repeat split; vm_compute; reflexivity.
Qed.

Lemma calculate_projected_points_proportional_witness :
  exists pp,
    calculate_projected_points 20 22 22 17 34 = Value pp /\
    calculate_projected_points 20 22 22 (2 * 17) 34 = Value (2 * pp).
Proof.
  apply (proj1 calculate_projected_points_proportional 20 22 22 17 34 2). lra.
Defined.

(** ** Bayesian update, continued *)

(** X12: with a history, a non-zero prior deviation and [n >= 0] recent
    games the posterior mean is [(mu + n*r) / (1 + n)], which does not
    depend on the prior deviation and lies between the prior mean and the
    recent mean, and the posterior deviation is [|s| / sqrt (1 + n)]. *)
Theorem bayesian_update_closed_form (g mu s r n : R) :
  g <> 0 -> s <> 0 -> 0 <= n ->
  exists mu' s',
    bayesian_update (Some g) mu s r n = Value (mu', s') /\
    mu' = (mu + n * r) / (1 + n) /\
    s' = Rabs s / sqrt (1 + n) /\
    Rmin mu r <= mu' <= Rmax mu r.
Proof.
  intros Hg Hs Hn.
  do 2 eexists. split; [apply bayesian_update_value; lra |].
  assert (Hs2 : s ^ 2 <> 0) by (apply pow_nonzero; exact Hs).
  assert (Emu : (mu / s ^ 2 + n * r / s ^ 2) / (1 / s ^ 2 + n / s ^ 2)
                = (mu + n * r) / (1 + n)) by (field; split; lra).
  split; [exact Emu |]. split.
  - replace (1 / (1 / s ^ 2 + n / s ^ 2)) with (Rsqr s / (1 + n))
      by (unfold Rsqr; field; split; lra).
    rewrite sqrt_div_alt by lra. rewrite sqrt_Rsqr_abs. reflexivity.
  - rewrite Emu.
    assert (Hpos : 0 < 1 + n) by lra.
    assert (Hq : (mu + n * r) / (1 + n) * (1 + n) = mu + n * r)
      by (field; lra).
    pose proof (Rmin_l mu r). pose proof (Rmin_r mu r).
    pose proof (Rmax_l mu r). pose proof (Rmax_r mu r).
    split; apply Rmult_le_reg_r with (r := 1 + n); try exact Hpos;
      rewrite Hq; nra.
Qed.

Lemma bayesian_update_closed_form_witness :
  exists mu' s',
    bayesian_update (Some 10) 20 (-2) 26 5 = Value (mu', s') /\
    mu' = (20 + 5 * 26) / (1 + 5) /\
    s' = Rabs (-2) / sqrt (1 + 5) /\
    Rmin 20 26 <= mu' <= Rmax 20 26.
Proof. apply (bayesian_update_closed_form 10 20 (-2) 26 5); lra. Defined.

Lemma bayesian_update_zero_sigma (g mu r n : R) :
  g <> 0 -> bayesian_update (Some g) mu 0 r n = Fails ZeroDivisionError.
Proof.
  intros Hg. unfold bayesian_update. rewrite no_history_some by exact Hg.
  replace (0 ^ 2) with 0 by ring.
  rewrite truediv_zero. reflexivity.
Qed.

(** ** Probability of the over, continued *)

Lemma mean_value (bs : list bool) :
  bs <> [] ->
  Np.mean bs = Value (INR (Np.count_true bs) / INR (List.length bs)).
Proof. intros H. destruct bs; [contradiction | reflexivity]. Qed.

Lemma greater_length (arr : list R) (x : R) :
  List.length (Np.greater arr x) = List.length arr.
Proof. unfold Np.greater. apply length_map. Qed.

Lemma greater_nonempty (arr : list R) (x : R) :
  arr <> [] -> Np.greater arr x <> [].
Proof. destruct arr; [contradiction | discriminate]. Qed.

Lemma count_true_cons (b : bool) (bs : list bool) :
  Np.count_true (b :: bs)
  = if b then S (Np.count_true bs) else Np.count_true bs.
Proof. unfold Np.count_true. destruct b; reflexivity. Qed.

Lemma gt_true_iff (a l : R) : Py.gt a l = true <-> l < a.
Proof.
  unfold Py.gt, Py.lt. destruct (Rlt_dec l a); split; intros H;
    try reflexivity; try assumption; try discriminate H; contradiction.
Qed.

Lemma gt_false_iff (a l : R) : Py.gt a l = false <-> a <= l.
Proof.
  unfold Py.gt, Py.lt. destruct (Rlt_dec l a); split; intros H;
    try reflexivity; try discriminate H; lra.
Qed.

Lemma count_greater_antitone (arr : list R) (l1 l2 : R) :
  l1 <= l2 ->
  (Np.count_true (Np.greater arr l2) <= Np.count_true (Np.greater arr l1))%nat.
Proof.
  intros Hl. induction arr as [| a arr IH]; [apply Nat.le_refl |].
  unfold Np.greater in *. cbn [map]. rewrite !count_true_cons.
  destruct (Py.gt a l2) eqn:E2, (Py.gt a l1) eqn:E1; try lia.
  apply gt_true_iff in E2. apply gt_false_iff in E1. lra.
Qed.

Lemma count_greater_all (arr : list R) (l : R) :
  Np.count_true (Np.greater arr l) = List.length arr <->
  Forall (fun a => l < a) arr.
Proof.
  induction arr as [| a arr IH]; [split; [constructor | reflexivity] |].
  pose proof (count_true_le_length (Np.greater arr l)) as Hle.
  rewrite greater_length in Hle.
  unfold Np.greater in *. cbn [map List.length]. rewrite count_true_cons.
  destruct (Py.gt a l) eqn:E; split; intros H.
  - constructor; [apply gt_true_iff; exact E | apply IH; lia].
  - f_equal. apply IH. inversion H; assumption.
  - lia.
  - apply gt_false_iff in E. inversion H; lra.
Qed.

Lemma count_greater_none (arr : list R) (l : R) :
  Np.count_true (Np.greater arr l) = 0%nat <->
  Forall (fun a => a <= l) arr.
Proof.
  induction arr as [| a arr IH]; [split; [constructor | reflexivity] |].
  unfold Np.greater in *. cbn [map]. rewrite count_true_cons.
  destruct (Py.gt a l) eqn:E; split; intros H.
  - discriminate H.
  - apply gt_true_iff in E. inversion H; lra.
  - constructor; [apply gt_false_iff; exact E | apply IH; exact H].
  - apply IH. inversion H; assumption.
Qed.

(** The fraction of the samples above the line, and when it is 1 or 0. *)
Lemma prob_over_value (arr : list R) (l : R) :
  arr <> [] ->
  exists p,
    Np.mean (Np.greater arr l) = Value p /\
    p = INR (Np.count_true (Np.greater arr l)) / INR (List.length arr) /\
    (p = 1 <-> Forall (fun a => l < a) arr) /\
    (p = 0 <-> Forall (fun a => a <= l) arr).
Proof.
  intros Hne. eexists.
  split; [apply mean_value, greater_nonempty; exact Hne |].
  rewrite greater_length.
  assert (Hlen : 0 < INR (List.length arr)).
  { apply lt_0_INR. destruct arr; [contradiction | simpl; lia]. }
  split; [reflexivity |].
  rewrite <- count_greater_all, <- count_greater_none.
  set (c := Np.count_true (Np.greater arr l)).
  set (n := List.length arr) in *.
  assert (Hq : INR c / INR n * INR n = INR c) by (field; lra).
  split; split; intros H.
  - apply INR_eq. rewrite H in Hq. lra.
  - rewrite H. field. lra.
  - apply INR_eq. rewrite H in Hq. simpl. lra.
  - rewrite H. simpl. field. lra.
Qed.

(** X14: raising the line never raises the probability of the over. *)
Theorem prob_over_decreasing_in_line (arr : list R) (l1 l2 : R) :
  arr <> [] -> l1 <= l2 ->
  exists p1 p2,
    Np.mean (Np.greater arr l1) = Value p1 /\
    Np.mean (Np.greater arr l2) = Value p2 /\
    p2 <= p1.
Proof.
  intros Hne Hl.
  do 2 eexists.
  split; [apply mean_value, greater_nonempty; exact Hne |].
  split; [apply mean_value, greater_nonempty; exact Hne |].
  rewrite !greater_length.
  assert (Hlen : 0 < INR (List.length arr)).
  { apply lt_0_INR. destruct arr; [contradiction | simpl; lia]. }
  apply Rmult_le_compat_r.
  - apply Rlt_le, Rinv_0_lt_compat. exact Hlen.
  - apply le_INR, count_greater_antitone. exact Hl.
Qed.

Lemma prob_over_decreasing_in_line_witness :
  exists p1 p2,
    Np.mean (Np.greater [18; 21; 25] 20) = Value p1 /\
    Np.mean (Np.greater [18; 21; 25] 22) = Value p2 /\
    p2 <= p1.
Proof.
  apply (prob_over_decreasing_in_line [18; 21; 25] 20 22);
    [discriminate | lra].
Defined.

(** X15: the probability of the over is 1 exactly when every sample lies
    above the line, and 0 exactly when none does; a sample on the line does
    not count as over. *)
Theorem prob_over_extremes (arr : list R) (l : R) :
  arr <> [] ->
  exists p,
    Np.mean (Np.greater arr l) = Value p /\
    (p = 1 <-> Forall (fun a => l < a) arr) /\
    (p = 0 <-> Forall (fun a => a <= l) arr).
Proof.
  intros Hne.
  destruct (prob_over_value arr l Hne) as (p & E & _ & H1 & H0).
  exists p. split; [exact E |]. split; assumption.
Qed.

Lemma prob_over_extremes_witness :
  exists p,
    Np.mean (Np.greater [20; 20] 20) = Value p /\
    (p = 1 <-> Forall (fun a => 20 < a) [20; 20]) /\
    (p = 0 <-> Forall (fun a => a <= 20) [20; 20]).
Proof. apply (prob_over_extremes [20; 20] 20). discriminate. Defined.

(** ** The script, continued *)

Lemma very_strong_over_iff (e : R) :
  get_bet_recommendation e = recommendation_text VeryStrongOver <-> 50 <= e.
Proof.
  split.
  - intros H. destruct (Rle_lt_dec 50 e) as [Hge | Hlt]; [exact Hge |].
    exfalso. revert H. unfold get_bet_recommendation, Py.ge.
    rewrite (le_false 50 e) by exact Hlt.
    destruct (Py.le 31 e); [discriminate |].
    destruct (Py.le 10 e); [discriminate |].
    destruct (Py.le e (-50)); [discriminate |].
    destruct (Py.le e (-31)); [discriminate |].
    destruct (Py.le e (-10)); discriminate.
  - intros H. unfold get_bet_recommendation, Py.ge.
    rewrite le_true by exact H. reflexivity.
Qed.

Lemma very_strong_under_iff (e : R) :
  get_bet_recommendation e = recommendation_text VeryStrongUnder <-> e <= -50.
Proof.
  split.
  - intros H. destruct (Rle_lt_dec e (-50)) as [Hle | Hgt]; [exact Hle |].
    exfalso. revert H. unfold get_bet_recommendation, Py.ge.
    rewrite (le_false e (-50)) by exact Hgt.
    destruct (Py.le 50 e); [discriminate |].
    destruct (Py.le 31 e); [discriminate |].
    destruct (Py.le 10 e); [discriminate |].
    destruct (Py.le e (-31)); [discriminate |].
    destruct (Py.le e (-10)); discriminate.
  - intros H. unfold get_bet_recommendation, Py.ge.
    py_compare. reflexivity.
Qed.

(** The script from the posterior on: once the update has returned a
    non-negative deviation and the simulation count is positive, every
    later step succeeds. *)
Lemma run_from_posterior (i : Inputs) (z : Draws) (pm ps : R) :
  bayesian_update (games_played i) (mean_points i) (std_dev_points i)
    (recent_avg_points i) (recent_games i) = Value (pm, ps) ->
  0 <= ps -> (0 < simulations i)%Z ->
  exists pp p m,
    calculate_projected_points (mean_points i) (recent_avg_points i)
      (opp_points_allowed_position i) (projected_minutes i) (avg_minutes i)
      = Value pp /\
    Np.mean (Np.greater (Np.normal_samples pp ps (simulations i) z) (line i))
      = Value p /\
    (p = 1 <-> Forall (fun a => line i < a)
                 (Np.normal_samples pp ps (simulations i) z)) /\
    (p = 0 <-> Forall (fun a => a <= line i)
                 (Np.normal_samples pp ps (simulations i) z)) /\
    0 <= p <= 1 /\
    odds_decimal (odds i) = Value m /\ 1 <= m /\
    run i z =
      Value (mkOutputs pm ps pp (Np.normal_samples pp ps (simulations i) z)
               (Py.max pp (opp_points_allowed_position i
                           * (floor_percentage i / 100)))
               (Py.lt pp (opp_points_allowed_position i
                          * (floor_percentage i / 100)))
               p (p * m - (1 - p)) (p * 100 - 50)
               (get_bet_recommendation (p * 100 - 50))).
Proof.
  intros Hpost Hps Hsims.
  destruct (calculate_projected_points_returns (mean_points i)
              (recent_avg_points i) (opp_points_allowed_position i)
              (projected_minutes i) (avg_minutes i)) as (pp & Hpp).
  assert (Hne : Np.normal_samples pp ps (simulations i) z <> []).
  { intros Hnil. apply (f_equal (@List.length R)) in Hnil.
    rewrite normal_samples_length in Hnil. simpl in Hnil. lia. }
  destruct (prob_over_value _ (line i) Hne) as (p & Hp & _ & H1 & H0).
  destruct (mean_bounds (Np.greater
              (Np.normal_samples pp ps (simulations i) z) (line i)))
    as (p' & Hp' & Hp01); [apply greater_nonempty; exact Hne |].
  rewrite Hp in Hp'. injection Hp' as <-.
  destruct (calculate_ev_multiplier (odds i)) as (m & Em & Hm & _ & Eev).
  exists pp, p, m.
  repeat (split; [first [assumption | lra] |]).
  unfold run.
  rewrite Hpost; cbn [bind].
  rewrite Hpp; cbn [bind].
  rewrite monte_carlo_simulation_value by (assumption || lia); cbn [bind].
  rewrite apply_floor_adjustment_value; cbn [bind].
  rewrite Hp; cbn [bind].
  rewrite Eev; cbn [bind].
  reflexivity.
Qed.

Lemma run_from_valid_inputs (i : Inputs) (z : Draws) :
  valid_inputs i ->
  exists pm ps,
    bayesian_update (games_played i) (mean_points i) (std_dev_points i)
      (recent_avg_points i) (recent_games i) = Value (pm, ps) /\
    0 <= ps /\ (0 < simulations i)%Z.
Proof.
  intros (Hs & Hn & Hsims).
  destruct (bayesian_update_valid (games_played i) (mean_points i)
              (std_dev_points i) (recent_avg_points i) (recent_games i) Hs Hn)
    as (pm & ps & Hpost & Hps).
  exists pm, ps. split; [exact Hpost |]. split; [exact Hps | lia].
Qed.

(** X16: in every run on valid inputs the expected value is, in exact
    arithmetic, at least the edge divided by 50 (that is, [2p - 1]); so an
    edge of 10 or more, the threshold of the over recommendations, comes
    with an expected value of at least 0.2.  On binary64 numbers the bound
    is met up to rounding: 6000 of 10000 samples over the line at the odds
    0 give the edge 10 and the expected value 0.19999999999999996. *)
Theorem run_ev_at_least_edge :
  (forall (i : Inputs) (z : Draws),
     valid_inputs i ->
     exists o,
       run i z = Value o /\
       edge_percentage o / 50 <= ev o /\
       (10 <= edge_percentage o -> 0.2 <= ev o)) /\
  (exists e,
     PrimFloat.sub
       (PrimFloat.mul (PrimFloat.div 6000%float 10000%float) 100%float)
       50%float = 10%float /\
     Binary64.calculate_ev (PrimFloat.div 6000%float 10000%float) 0%float
       = Value e /\
     PrimFloat.ltb e 0.2%float = true).
Proof.
  split.
  - intros i z Hvalid.
    destruct (run_from_valid_inputs i z Hvalid)
      as (pm & ps & Hpost & Hps & Hs).
    destruct (run_from_posterior i z pm ps Hpost Hps Hs)
      as (pp & p & m & _ & _ & _ & _ & Hp & _ & Hm & Hrun).
    eexists. split; [exact Hrun |].
    cbn [edge_percentage ev].
    split; [| intros H]; nra.
  - eexists. repeat split; vm_compute; reflexivity.
Qed.

Lemma run_ev_at_least_edge_witness :
  exists o,
    run default_inputs zero_draws = Value o /\
    edge_percentage o / 50 <= ev o /\
    (10 <= edge_percentage o -> 0.2 <= ev o).
Proof.
  apply (proj1 run_ev_at_least_edge default_inputs zero_draws).
  unfold valid_inputs, default_inputs; simpl.
  split; [lra | split; [lra | lia]].
Defined.

(** X17: in a run on valid inputs the recommendation is a very strong over
    bet exactly when every simulated outcome lies above the line, and a
    very strong under bet exactly when none does. *)
Theorem run_very_strong_iff_unanimous (i : Inputs) (z : Draws) :
  valid_inputs i ->
  exists o,
    run i z = Value o /\
    (bet_recommendation o = recommendation_text VeryStrongOver <->
     Forall (fun a => line i < a) (simulated_points o)) /\
    (bet_recommendation o = recommendation_text VeryStrongUnder <->
     Forall (fun a => a <= line i) (simulated_points o)).
Proof.
  intros Hvalid.
  destruct (run_from_valid_inputs i z Hvalid) as (pm & ps & Hpost & Hps & Hs).
  destruct (run_from_posterior i z pm ps Hpost Hps Hs)
    as (pp & p & m & _ & _ & H1 & H0 & Hp & _ & _ & Hrun).
  eexists. split; [exact Hrun |].
  cbn [bet_recommendation simulated_points].
  rewrite very_strong_over_iff, very_strong_under_iff, <- H1, <- H0.
  split; split; intros H; lra.
Qed.

Lemma run_very_strong_iff_unanimous_witness :
  exists o,
    run default_inputs zero_draws = Value o /\
    (bet_recommendation o = recommendation_text VeryStrongOver <->
     Forall (fun a => line default_inputs < a) (simulated_points o)) /\
    (bet_recommendation o = recommendation_text VeryStrongUnder <->
     Forall (fun a => a <= line default_inputs) (simulated_points o)).
Proof.
  apply (run_very_strong_iff_unanimous default_inputs zero_draws).
  unfold valid_inputs, default_inputs; simpl.
  split; [lra | split; [lra | lia]].
Defined.

(** X19: a standard deviation of 0 together with a non-zero number of
    games played stops the script with [ZeroDivisionError], whatever the
    other inputs are. *)
Theorem run_zero_deviation_with_history (i : Inputs) (z : Draws) (g : R) :
  games_played i = Some g -> g <> 0 -> std_dev_points i = 0 ->
  run i z = Fails ZeroDivisionError.
Proof.
  intros Hgp Hg Hsd. unfold run. rewrite Hgp, Hsd.
  rewrite bayesian_update_zero_sigma by exact Hg. reflexivity.
Qed.

Lemma run_zero_deviation_with_history_witness :
  run (mkInputs 20 0 (Some 10) 22 5 22 35 34 50 20.5 (-110) 1000) zero_draws
    = Fails ZeroDivisionError.
Proof.
  apply (run_zero_deviation_with_history _ _ 10);
    [reflexivity | lra | reflexivity].
Defined.

(** X20: the number of games played acts as a gate only: two runs that
    differ in it, both with a non-zero number, are equal in every output
    and in failure. *)
Theorem run_games_played_gate (i : Inputs) (z : Draws) (g1 g2 : R) :
  g1 <> 0 -> g2 <> 0 ->
  run (with_games_played i (Some g1)) z
  = run (with_games_played i (Some g2)) z.
Proof.
  intros H1 H2. unfold run.
  cbn [with_games_played games_played mean_points std_dev_points
       recent_avg_points recent_games opp_points_allowed_position
       projected_minutes avg_minutes floor_percentage line odds simulations].
  assert (E : forall mu s r n,
            bayesian_update (Some g1) mu s r n
            = bayesian_update (Some g2) mu s r n).
  { intros. unfold bayesian_update.
    rewrite !no_history_some by assumption. reflexivity. }
  rewrite E. reflexivity.
Qed.

Lemma run_games_played_gate_witness :
  run (with_games_played default_inputs (Some 1)) zero_draws
  = run (with_games_played default_inputs (Some 82)) zero_draws.
Proof. apply (run_games_played_gate default_inputs zero_draws 1 82); lra. Defined.

(** * The profile store *)

(** ** Dictionaries *)

Lemma lookup_set_same {V : Type} (d : Store.dict V) (k : string) (v : V) :
  Store.lookup (Store.set d k v) k = Some v.
Proof.
  induction d as [| [k' v'] d IH]; simpl.
  - rewrite String.eqb_refl. reflexivity.
  - destruct (String.eqb k' k) eqn:E; simpl.
    + rewrite String.eqb_refl. reflexivity.
    + rewrite E. exact IH.
Qed.

Lemma lookup_set_other {V : Type} (d : Store.dict V) (k k0 : string) (v : V) :
  k0 <> k -> Store.lookup (Store.set d k v) k0 = Store.lookup d k0.
Proof.
  intros Hne. induction d as [| [k' v'] d IH]; simpl.
  - apply String.eqb_neq in Hne. rewrite String.eqb_sym, Hne. reflexivity.
  - destruct (String.eqb k' k) eqn:E; simpl.
    + apply String.eqb_eq in E. subst k'.
      assert (E0 : String.eqb k k0 = false)
        by (apply String.eqb_neq; congruence).
      rewrite E0. reflexivity.
    + rewrite IH. reflexivity.
Qed.

Lemma lookup_pop_other {V : Type} (d : Store.dict V) (k k0 : string) :
  k0 <> k -> Store.lookup (Store.pop d k) k0 = Store.lookup d k0.
Proof.
  intros Hne. induction d as [| [k' v'] d IH]; simpl; [reflexivity |].
  destruct (String.eqb k' k) eqn:E; simpl.
  - apply String.eqb_eq in E. subst k'.
    assert (E0 : String.eqb k k0 = false)
      by (apply String.eqb_neq; congruence).
    rewrite E0. reflexivity.
  - rewrite IH. reflexivity.
Qed.

Lemma lookup_none_iff {V : Type} (d : Store.dict V) (k : string) :
  Store.lookup d k = None <-> ~ In k (Store.keys d).
Proof.
  induction d as [| [k' v'] d IH]; simpl; [tauto |].
  destruct (String.eqb k' k) eqn:E.
  - apply String.eqb_eq in E. split; [discriminate | intros H; tauto].
  - apply String.eqb_neq in E. rewrite IH. tauto.
Qed.

Lemma lookup_pop_same {V : Type} (d : Store.dict V) (k : string) :
  NoDup (Store.keys d) -> Store.lookup (Store.pop d k) k = None.
Proof.
  induction d as [| [k' v'] d IH]; simpl; intros Hnd; [reflexivity |].
  inversion Hnd as [| ? ? Hnotin Hnd']; subst.
  destruct (String.eqb k' k) eqn:E; simpl.
  - apply String.eqb_eq in E. subst k'. apply lookup_none_iff. exact Hnotin.
  - rewrite E. apply IH. exact Hnd'.
Qed.

Lemma keys_set_present {V : Type} (d : Store.dict V) (k : string) (v : V) :
  In k (Store.keys d) -> Store.keys (Store.set d k v) = Store.keys d.
Proof.
  induction d as [| [k' v'] d IH]; simpl; [tauto |].
  intros Hin. destruct (String.eqb k' k) eqn:E; simpl.
  - apply String.eqb_eq in E. subst k'. reflexivity.
  - apply String.eqb_neq in E. f_equal. apply IH.
    destruct Hin as [H | H]; [contradiction | exact H].
Qed.

Lemma keys_set_absent {V : Type} (d : Store.dict V) (k : string) (v : V) :
  ~ In k (Store.keys d) ->
  Store.keys (Store.set d k v) = (Store.keys d ++ [k])%list.
Proof.
  induction d as [| [k' v'] d IH]; simpl; [reflexivity |].
  intros Hnotin. destruct (String.eqb k' k) eqn:E; simpl.
  - apply String.eqb_eq in E. subst k'. tauto.
  - f_equal. apply IH. tauto.
Qed.

Lemma keys_set_nodup {V : Type} (d : Store.dict V) (k : string) (v : V) :
  NoDup (Store.keys d) -> NoDup (Store.keys (Store.set d k v)).
Proof.
  intros Hnd. destruct (in_dec string_dec k (Store.keys d)) as [Hin | Hnotin].
  - rewrite keys_set_present by exact Hin. exact Hnd.
  - rewrite keys_set_absent by exact Hnotin.
    apply NoDup_app; [exact Hnd | repeat constructor; simpl; tauto |].
    intros x Hx [<- | []]. contradiction.
Qed.

Lemma index_missing (l : list string) (s : string) :
  ~ In s l -> Store.index l (Store.VStr s) = Store.Raised Store.ValueError.
Proof.
  induction l as [| x l IH]; simpl; intros Hnotin; [reflexivity |].
  assert (E : String.eqb x s = false) by (apply String.eqb_neq; tauto).
  rewrite E, IH by tauto. reflexivity.
Qed.

Lemma index_raises_value_error (l : list string) (v : Store.value)
    (e : Store.exn) :
  Store.index l v = Store.Raised e -> e = Store.ValueError.
Proof.
  revert e. induction l as [| x l IH]; simpl; intros e H.
  - congruence.
  - destruct (Store.equals x v); [discriminate |].
    destruct (Store.index l v); [discriminate |].
    injection H as <-. apply IH. reflexivity.
Qed.

(** ** One run of the script on the store *)

(** The profiles in the file after a run that reaches the buttons. *)
Lemma script_players (fs fs' : Store.FileSystem)
    (selected name position : string) (f : Store.Fields) (save del : bool) :
  Store.script fs selected name position f save del = Store.Done fs' ->
  Store.load_all_players fs' =
    (let players1 :=
       if save
       then Store.set (Store.load_all_players fs) name
              (Store.profile name position f)
       else Store.load_all_players fs in
     if del && negb (String.eqb selected "New Player")
     then Store.pop players1 selected else players1).
Proof.
  unfold Store.script.
  destruct (Store.player_data (Store.load_all_players fs) selected)
    as [data | e]; [| discriminate].
  destruct (Store.sidebar data) as [shown | e]; [| discriminate].
  unfold Store.save_button, Store.delete_button.
  destruct save, (del && negb (String.eqb selected "New Player"));
    cbn; intros H; injection H as <-; reflexivity.
Qed.

Lemma sidebar_of_profile (name position : string) (f : Store.Fields) :
  In position Store.positions ->
  Store.sidebar (Store.profile name position f)
    = Store.Done (Store.VStr name, position, f).
Proof.
  intros Hin. destruct f. unfold Store.positions in Hin. simpl in Hin.
  destruct Hin as [<- | [<- | [<- | [<- | [<- | []]]]]]; reflexivity.
Qed.

Lemma player_data_lookup (players : Store.dict (Store.dict Store.value))
    (name : string) (data : Store.dict Store.value) :
  name <> "New Player" -> Store.lookup players name = Some data ->
  Store.player_data players name = Store.Done data.
Proof.
  intros Hname Hl. unfold Store.player_data.
  apply String.eqb_neq in Hname. rewrite Hname, Hl. reflexivity.
Qed.

(** X21: the keys written by the save button are the keys read for the
    widgets: the dict saved for a player, read back, gives every widget
    the value that was saved, and the position dropdown the saved
    position. *)
Theorem profile_sidebar_round_trip
    (name position : string) (f : Store.Fields) :
  In position Store.positions ->
  Store.sidebar (Store.profile name position f)
    = Store.Done (Store.VStr name, position, f).
Proof. apply sidebar_of_profile. Qed.

Lemma profile_sidebar_round_trip_witness :
  Store.sidebar (Store.profile "Ann" "SF" Store.placeholders)
    = Store.Done (Store.VStr "Ann", "SF", Store.placeholders).
Proof.
  apply (profile_sidebar_round_trip "Ann" "SF" Store.placeholders).
  simpl. tauto.
Defined.

(** X22: after a run in which "Save Player Data" was clicked, the next run
    finds the player in the file: selecting the saved name gives the
    widgets the saved values.  The name must not be "New Player", and the
    same run must not have deleted that player. *)
Theorem saved_profile_reloads (fs fs' : Store.FileSystem)
    (selected name position : string) (f : Store.Fields) (del : bool) :
  name <> "New Player" -> In position Store.positions ->
  del = false \/ selected <> name ->
  Store.script fs selected name position f true del = Store.Done fs' ->
  exists data,
    Store.player_data (Store.load_all_players fs') name = Store.Done data /\
    Store.sidebar data = Store.Done (Store.VStr name, position, f).
Proof.
  intros Hname Hpos Hdel Hrun.
  exists (Store.profile name position f).
  split; [| apply sidebar_of_profile; exact Hpos].
  apply player_data_lookup; [exact Hname |].
  rewrite (script_players _ _ _ _ _ _ _ _ Hrun). cbn zeta.
  destruct (del && negb (String.eqb selected "New Player")) eqn:E.
  - destruct Hdel as [-> | Hne]; [discriminate E |].
    rewrite lookup_pop_other by congruence. apply lookup_set_same.
  - apply lookup_set_same.
Qed.

Lemma saved_profile_reloads_witness :
  exists data,
    Store.player_data
      (Store.load_all_players
         (Some [("Ann", Store.profile "Ann" "SF" Store.placeholders)]))
      "Ann" = Store.Done data /\
    Store.sidebar data
      = Store.Done (Store.VStr "Ann", "SF", Store.placeholders).
Proof.
  apply (saved_profile_reloads None _ "New Player" "Ann" "SF"
           Store.placeholders false).
  - discriminate.
  - simpl. tauto.
  - left. reflexivity.
  - reflexivity.
Defined.

(** X23: a run changes no profile other than the one saved and the one
    deleted: every other name keeps its profile, or stays absent. *)
Theorem script_other_profiles_untouched (fs fs' : Store.FileSystem)
    (selected name position : string) (f : Store.Fields) (save del : bool)
    (k : string) :
  Store.script fs selected name position f save del = Store.Done fs' ->
  k <> name -> k <> selected ->
  Store.lookup (Store.load_all_players fs') k
  = Store.lookup (Store.load_all_players fs) k.
Proof.
  intros Hrun Hname Hsel.
  rewrite (script_players _ _ _ _ _ _ _ _ Hrun). cbn zeta.
  destruct (del && negb (String.eqb selected "New Player")), save;
    try rewrite lookup_pop_other by exact Hsel;
    try rewrite lookup_set_other by exact Hname; reflexivity.
Qed.

Lemma script_other_profiles_untouched_witness :
  Store.lookup
    (Store.load_all_players
       (Some [("Bob", Store.profile "Bob" "C" Store.placeholders)])) "Bob"
  = Store.lookup
      (Store.load_all_players
         (Some [("Ann", Store.profile "Ann" "SF" Store.placeholders);
                ("Bob", Store.profile "Bob" "C" Store.placeholders)])) "Bob".
Proof.
  apply (script_other_profiles_untouched _ _ "Ann" "Cy" "PG"
           Store.placeholders false true "Bob").
  - reflexivity.
  - discriminate.
  - discriminate.
Defined.

(** X24: "Delete Player Data" removes the selected player from the file,
    also when the same run saved under that name; the names in the store
    being distinct, as the keys of a dict are. *)
Theorem script_delete_removes (fs fs' : Store.FileSystem)
    (selected name position : string) (f : Store.Fields) (save : bool) :
  NoDup (Store.keys (Store.load_all_players fs)) ->
  selected <> "New Player" ->
  Store.script fs selected name position f save true = Store.Done fs' ->
  Store.lookup (Store.load_all_players fs') selected = None /\
  ~ In selected (Store.options (Store.load_all_players fs')).
Proof.
  intros Hnd Hsel Hrun.
  assert (Hl : Store.lookup (Store.load_all_players fs') selected = None).
  { rewrite (script_players _ _ _ _ _ _ _ _ Hrun). cbn zeta.
    apply String.eqb_neq in Hsel. rewrite Hsel. cbn [negb andb].
    apply lookup_pop_same. destruct save; [apply keys_set_nodup |]; exact Hnd. }
  split; [exact Hl |].
  unfold Store.options. intros [Heq | Hin]; [congruence |].
  apply lookup_none_iff in Hl. contradiction.
Qed.

Lemma script_delete_removes_witness :
  Store.lookup
    (Store.load_all_players
       (Some [("Bob", Store.profile "Bob" "C" Store.placeholders)])) "Ann"
    = None /\
  ~ In "Ann"
      (Store.options
         (Store.load_all_players
            (Some [("Bob", Store.profile "Bob" "C" Store.placeholders)]))).
Proof.
  apply (script_delete_removes
           (Some [("Ann", Store.profile "Ann" "SF" Store.placeholders);
                  ("Bob", Store.profile "Bob" "C" Store.placeholders)])
           _ "Ann" "Ann" "SF" Store.placeholders false).
  - simpl. repeat constructor; simpl; intuition discriminate.
  - discriminate.
  - reflexivity.
Defined.

(** X25: a profile stored under the name "New Player" is out of reach of
    the dropdown: selecting that name shows the placeholders, not the
    profile, and no run deletes the profile; it only changes when a run
    saves under that name again. *)
Theorem new_player_profile_unreachable (fs : Store.FileSystem)
    (stored : Store.dict Store.value) :
  Store.lookup (Store.load_all_players fs) "New Player" = Some stored ->
  (Store.player_data (Store.load_all_players fs) "New Player"
     = Store.Done [] /\
   Store.sidebar [] = Store.Done (Store.VStr "Example Player", "PG",
                                  Store.placeholders)) /\
  (forall selected name position f save del fs',
     Store.script fs selected name position f save del = Store.Done fs' ->
     save = false \/ name <> "New Player" ->
     Store.lookup (Store.load_all_players fs') "New Player" = Some stored).
Proof.
  intros Hl. split.
  - split; reflexivity.
  - intros selected name position f save del fs' Hrun Hsave.
    rewrite (script_players _ _ _ _ _ _ _ _ Hrun). cbn zeta.
    destruct (String.eqb selected "New Player") eqn:E.
    + cbn [negb]. rewrite Bool.andb_false_r.
      destruct save; [| exact Hl].
      destruct Hsave as [H | H]; [discriminate H |].
      rewrite lookup_set_other by congruence. exact Hl.
    + apply String.eqb_neq in E.
      destruct del; cbn [negb andb].
      * rewrite lookup_pop_other by congruence.
        destruct save; [| exact Hl].
        destruct Hsave as [H | H]; [discriminate H |].
        rewrite lookup_set_other by congruence. exact Hl.
      * destruct save; [| exact Hl].
        destruct Hsave as [H | H]; [discriminate H |].
        rewrite lookup_set_other by congruence. exact Hl.
Qed.

Lemma new_player_profile_unreachable_witness :
  Store.lookup
    (Store.load_all_players
       (Some [("New Player",
               Store.profile "New Player" "C" Store.placeholders)]))
    "New Player"
  = Some (Store.profile "New Player" "C" Store.placeholders).
Proof.
  refine (proj2 (new_player_profile_unreachable
            (Some [("New Player",
                    Store.profile "New Player" "C" Store.placeholders)])
            _ _) "New Player" "Ann" "SF" Store.placeholders false true _ _ _).
  - reflexivity.
  - reflexivity.
  - left. reflexivity.
Defined.

(** X26: a stored position that is not one of the five offered stops the
    script with [ValueError] as soon as that player is selected, before
    any button is handled. *)
Theorem script_unknown_position_raises (fs : Store.FileSystem)
    (selected name position s : string) (f : Store.Fields)
    (data : Store.dict Store.value) (save del : bool) :
  selected <> "New Player" ->
  Store.lookup (Store.load_all_players fs) selected = Some data ->
  Store.lookup data "player_position" = Some (Store.VStr s) ->
  ~ In s Store.positions ->
  Store.script fs selected name position f save del
    = Store.Raised Store.ValueError.
Proof.
  intros Hsel Hl Hpos Hnotin. unfold Store.script.
  rewrite (player_data_lookup _ _ _ Hsel Hl).
  unfold Store.sidebar, Store.get. rewrite Hpos.
  rewrite index_missing by exact Hnotin. reflexivity.
Qed.

Lemma script_unknown_position_raises_witness :
  Store.script
    (Some [("Ann", Store.profile "Ann" "G" Store.placeholders)])
    "Ann" "Ann" "SF" Store.placeholders true false
  = Store.Raised Store.ValueError.
Proof.
  apply (script_unknown_position_raises _ "Ann" "Ann" "SF" "G"
           Store.placeholders
           (Store.profile "Ann" "G" Store.placeholders) true false).
  - discriminate.
  - reflexivity.
  - reflexivity.
  - simpl. intuition discriminate.
Defined.

(** X27: the file is written by the buttons only: a run without a click
    leaves the file system as it is, a missing file included, and so does
    a click on "Delete Player Data" while "New Player" is selected, a run
    that always succeeds. *)
Theorem script_writes_only_on_buttons (fs : Store.FileSystem)
    (name position : string) (f : Store.Fields) :
  (forall del,
     Store.script fs "New Player" name position f false del = Store.Done fs) /\
  (forall selected fs',
     Store.script fs selected name position f false false = Store.Done fs' ->
     fs' = fs).
Proof.
  split.
  - intros del. destruct del; reflexivity.
  - intros selected fs'. unfold Store.script.
    destruct (Store.player_data (Store.load_all_players fs) selected)
      as [data | e]; [| discriminate].
    destruct (Store.sidebar data) as [shown | e]; [| discriminate].
    cbn. intros H. injection H as <-. reflexivity.
Qed.

Lemma script_writes_only_on_buttons_witness :
  Store.script None "New Player" "Ann" "SF" Store.placeholders false true
    = Store.Done None.
Proof.
  apply (proj1 (script_writes_only_on_buttons None "Ann" "SF"
                  Store.placeholders)).
Defined.

(** X28: saving keeps the order of the dropdown: a name already in the
    store keeps its place, a new name goes to the end. *)
Theorem save_keeps_dropdown_order (fs fs' : Store.FileSystem)
    (selected name position : string) (f : Store.Fields) :
  Store.script fs selected name position f true false = Store.Done fs' ->
  (In name (Store.keys (Store.load_all_players fs)) ->
   Store.options (Store.load_all_players fs')
   = Store.options (Store.load_all_players fs)) /\
  (~ In name (Store.keys (Store.load_all_players fs)) ->
   Store.options (Store.load_all_players fs')
   = (Store.options (Store.load_all_players fs) ++ [name])%list).
Proof.
  intros Hrun.
  rewrite (script_players _ _ _ _ _ _ _ _ Hrun). cbn zeta. cbn [andb].
  unfold Store.options. split; intros H.
  - rewrite keys_set_present by exact H. reflexivity.
  - rewrite keys_set_absent by exact H. reflexivity.
Qed.

Lemma save_keeps_dropdown_order_witness :
  Store.options
    (Store.load_all_players
       (Some [("Ann", Store.profile "Ann" "SF" Store.placeholders);
              ("Bob", Store.profile "Bob" "C" Store.placeholders)]))
  = (Store.options
       (Store.load_all_players
          (Some [("Ann", Store.profile "Ann" "SF" Store.placeholders)]))
     ++ ["Bob"])%list.
Proof.
  refine (proj2 (save_keeps_dropdown_order
            (Some [("Ann", Store.profile "Ann" "SF" Store.placeholders)])
            _ "Ann" "Bob" "C" Store.placeholders _) _).
  - reflexivity.
  - simpl. intuition discriminate.
Defined.

(** X29: when the selection is one of the options of the dropdown, the
    lookup of the selected profile (lines 33-36) never raises [KeyError]:
    it yields the empty dict for "New Player" and the stored profile of
    any other selected name. *)
Theorem player_data_never_key_error
    (players : Store.dict (Store.dict Store.value)) (selected : string) :
  In selected (Store.options players) ->
  exists data,
    Store.player_data players selected = Store.Done data /\
    (selected = "New Player" -> data = []) /\
    (selected <> "New Player" -> Store.lookup players selected = Some data).
Proof.
  intros Hin. unfold Store.player_data.
  destruct (String.eqb selected "New Player") eqn:E; cbn [negb].
  - apply String.eqb_eq in E. exists []. split; [reflexivity |].
    split; [reflexivity | intros H; contradiction].
  - apply String.eqb_neq in E.
    destruct (Store.lookup players selected) as [data |] eqn:Hl.
    + exists data. split; [reflexivity |].
      split; [intros H; contradiction | reflexivity].
    + exfalso. apply lookup_none_iff in Hl.
      destruct Hin as [Heq | Hin]; [congruence | contradiction].
Qed.

Lemma player_data_never_key_error_witness :
  exists data,
    Store.player_data
      [("Ann", Store.profile "Ann" "SF" Store.placeholders)] "Ann"
      = Store.Done data /\
    ("Ann" = "New Player" -> data = []) /\
    ("Ann" <> "New Player" ->
     Store.lookup [("Ann", Store.profile "Ann" "SF" Store.placeholders)] "Ann"
     = Some data).
Proof.
  apply (player_data_never_key_error
           [("Ann", Store.profile "Ann" "SF" Store.placeholders)] "Ann").
  simpl. right; left; reflexivity.
Defined.
